(** * netem: the host network facade ([Net]) and the SNI throttling DPI rule

    A shallow embedding of
    - [ErrDial], [Net.DialContext], [Net.DialTLSContext], [Net.tlsHandshake],
      [Net.LookupHost], [Net.ListenTLS] and [netListenerTLS.Accept], and
    - [DPIThrottleTrafficForTLSSNI.Filter],
    together with the properties the specification states about them.

    Go values are modelled as the code has them: a function returning
    [(net.Conn, error)] returns a pair whose components may each be nil, the
    underlying stack is an arbitrary implementation of its interface acting on
    an abstract state, and every call that leaves the facade is recorded in a
    trace. *)

From Stdlib Require Import ZArith List Ascii String Bool Lia PrimFloat.
Import ListNotations.
Open Scope string_scope.
Open Scope list_scope.

Set Implicit Arguments.
Set Warnings "-register-all".

(* ===================================================================== *)
(** ** Go error values and [errors.Is] *)
(* ===================================================================== *)

(** An [error] interface value.  Pointer-typed errors carry the address of
    the object they point to, because Go compares them by address. *)
Inductive error : Type :=
| nil_error
    (* the nil interface value *)
| errorValue (id : Z) (text : string)
    (* a comparable error without Is or Unwrap methods, such as
       context.Canceled; [id] is its identity, [text] what Error() returns *)
| wrapError (addr : nat) (msg : string) (err : error)
    (* the *fmt.wrapError built by fmt.Errorf with one %w verb *)
| ErrDial (addr : nat) (Errors : list error).
    (* a *ErrDial: the struct at [addr] and the value of its Errors field *)

Definition is_nil (e : error) : bool :=
  match e with nil_error => true | _ => false end.

(** The [==] of Go on two error interface values: same dynamic type and,
    for pointers, same address. *)
Definition error_eqb (x y : error) : bool :=
  match x, y with
  | nil_error, nil_error => true
  | errorValue i _, errorValue j _ => Z.eqb i j
  | wrapError a _ _, wrapError b _ _ => Nat.eqb a b
  | ErrDial a _, ErrDial b _ => Nat.eqb a b
  | _, _ => false
  end.

(** The loop of the standard library's [errors.is]: compare, then ask the
    Is method when there is one, then unwrap.  [*ErrDial] has an Is method
    (below, inlined here because the two functions call each other) and no
    Unwrap method; [*fmt.wrapError] has Unwrap and no Is. *)
Fixpoint is_ (err target : error) {struct err} : bool :=
  if error_eqb err target then true
  else
    match err with
    | ErrDial _ Errors =>
        existsb
          (fun child =>
             match child, target with
             | nil_error, _ | _, nil_error => error_eqb child target
             | _, _ => is_ child target
             end)
          Errors
    | wrapError _ _ err' =>
        match err' with
        | nil_error => false
        | _ => is_ err' target
        end
    | _ => false
    end.

(** [errors.Is(err, target)]. *)
Definition errors_Is (err target : error) : bool :=
  match err, target with
  | nil_error, _ | _, nil_error => error_eqb err target
  | _, _ => is_ err target
  end.

(** [func (e *ErrDial) Is(target error) bool], on the Errors of the
    receiver. *)
Definition ErrDial_Is (Errors : list error) (target : error) : bool :=
  existsb (fun child => errors_Is child target) Errors.

(** [func (e *ErrDial) Error() string] and the Error methods of the other
    errors.  Error is only called on non-nil errors in the code modelled
    here; on a nil one Go panics, the empty string stands for that. *)
Fixpoint error_Error (e : error) : string :=
  match e with
  | nil_error => ""
  | errorValue _ text => text
  | wrapError _ msg _ => msg
  | ErrDial _ Errors =>
      ("dial failed: " ++
       (fix each (l : list error) : string :=
          match l with
          | [] => ""
          | err :: rest =>
              error_Error err ++
              match rest with
              | [] => ""
              | _ :: _ => "; " ++ each rest
              end
          end) Errors)%string
  end.

(** [context.Canceled] and [context.DeadlineExceeded]. *)
Definition context_Canceled : error := errorValue 1%Z "context canceled".
Definition context_DeadlineExceeded : error :=
  errorValue 2%Z "context deadline exceeded".

(** The loop of [func (e *ErrDial) Error() string] on errors on which
    Error() returns: a [strings.Builder], and a separator after every
    element whose index is below [len(e.Errors)-1].  The panic on a nil
    element is in [Error_call] below. *)
Fixpoint ErrDial_Error_range (len index : Z) (rest : list error) (b : string)
  : string :=
  match rest with
  | [] => b
  | err :: rest' =>
      let b := (b ++ error_Error err)%string in
      let b := if (index <? len - 1)%Z then (b ++ "; ")%string else b in
      ErrDial_Error_range len (index + 1)%Z rest' b
  end.

Definition ErrDial_Error (Errors : list error) : string :=
  ErrDial_Error_range (Z.of_nat (List.length Errors)) 0%Z Errors "dial failed: ".

(* ===================================================================== *)
(** ** Go values the facade handles *)
(* ===================================================================== *)

(** An instant and a [time.Duration], both in nanoseconds.  The zero
    [time.Time{}] ("no deadline") is [None] of [option Time]. *)
Definition Time := Z.
Definition Duration := Z.
Definition time_Second : Duration := 1000000000%Z.

(** Why a context is done: what [ctx.Err()] returns once [ctx.Done()] is
    closed. *)
Inductive ctxReason : Type := ctxCanceled | ctxDeadlineExceeded.

Definition ctxReason_error (why : ctxReason) : error :=
  match why with
  | ctxCanceled => context_Canceled
  | ctxDeadlineExceeded => context_DeadlineExceeded
  end.

(** A [context.Context] as a call receives it: its deadline, and whether it
    is already done when the call is made ([None]: not yet). *)
Record Context : Type := mkContext {
  ctx_Deadline : option Time;
  ctx_Err : option ctxReason
}.

Definition context_Background : Context :=
  {| ctx_Deadline := None; ctx_Err := None |}.

(** [context.WithTimeout(parent, timeout)] at the instant [now]: the parent
    itself (with a cancel function) when its deadline is earlier, else a
    child with deadline [now + timeout], already expired when that lies in
    the past. *)
Definition context_WithTimeout
  (parent : Context) (timeout : Duration) (now : Time) : Context :=
  let d := (now + timeout)%Z in
  let child :=
    {| ctx_Deadline := Some d;
       ctx_Err := match ctx_Err parent with
                  | Some why => Some why
                  | None => if (timeout <=? 0)%Z then Some ctxDeadlineExceeded
                            else None
                  end |} in
  match ctx_Deadline parent with
  | Some cur => if (cur <? d)%Z then parent else child
  | None => child
  end.

(** A [*x509.CertPool], by identity. *)
Definition x509_CertPool := nat.

(** The fields of [tls.Config] the facade sets. *)
Record tls_Config : Type := {
  RootCAs : x509_CertPool;
  NextProtos : list string;
  ServerName : string
}.

(** A [net.Conn] interface value: nil, a connection of the underlying
    stack, or the [*tls.Conn] that [tls.Client] / [tls.Server] wrap around
    another connection. *)
Definition ConnId := nat.

Inductive Conn : Type :=
| nilConn
| stackConn (id : ConnId)
| tlsConn (conn : Conn) (config : tls_Config) (isClient : bool).

(** A [net.Listener] of the underlying stack, or nil. *)
Inductive Listener : Type :=
| nilListener
| stackListener (id : nat).

(** A [*net.TCPAddr]: IP and port. *)
Definition TCPAddr := (string * Z)%type.

(** What the select statement of [tlsHandshake] received. *)
Inductive selectCase : Type :=
| caseDone (why : ctxReason)    (* case <-ctx.Done() *)
| caseErrch (err : error).      (* case err := <-errch *)

(** The calls that leave the facade, in the order they are made. *)
Inductive Event : Type :=
| CallGetaddrinfoLookupANY (ctx : Context) (domain : string)
| CallDialContext (ctx : Context) (network endpoint : string)
| CallDefaultCertPool
| CallListenTCP (network : string) (addr : TCPAddr)
| CallAccept (l : nat)
| CallSetDeadline (conn : ConnId) (t : option Time)
| CallClose (conn : ConnId)
| GoHandshakeContext (tc : Conn) (ctx : Context)
    (* go func() { errch <- tc.HandshakeContext(ctx) }() *)
| Select (c : selectCase)
| CallHandshakeContext (tc : Conn) (ctx : Context).

(** How a call ends: it returns, it panics (a method called on a nil
    interface), or it never returns. *)
Inductive Outcome (A : Type) : Type :=
| Returned (a : A)
| Panicked
| Blocked.
Arguments Panicked {A}.
Arguments Blocked {A}.

(** Whether a call of Error() on an error returns: it panics on a nil
    error, and on an [ErrDial] that holds an error on which it panics. *)
Fixpoint Error_returns (e : error) : bool :=
  match e with
  | nil_error => false
  | errorValue _ _ => true
  | wrapError _ _ _ => true
  | ErrDial _ Errors => forallb Error_returns Errors
  end.

(** A call of Error() on an error, with its panics; for an [ErrDial] it is
    [func (e *ErrDial) Error() string]: the builder starts with
    "dial failed: ", each element's Error() is called and written, and a
    separator follows when the index is below [len(e.Errors)-1]. *)
Fixpoint Error_call (e : error) : Outcome string :=
  match e with
  | nil_error => Panicked
  | errorValue _ text => Returned text
  | wrapError _ msg _ => Returned msg
  | ErrDial _ Errors =>
      (fix range (len index : Z) (rest : list error) (b : string)
         : Outcome string :=
         match rest with
         | [] => Returned b
         | err :: rest' =>
             match Error_call err with
             | Returned text =>
                 let b := (b ++ text)%string in
                 let b := if (index <? len - 1)%Z then (b ++ "; ")%string
                          else b in
                 range len (index + 1)%Z rest' b
             | Panicked => Panicked
             | Blocked => Blocked
             end
         end)
        (Z.of_nat (List.length Errors)) 0%Z Errors "dial failed: "
  end.

(** The deadline in force on the stack connection [id] after the calls of
    a trace: that of the last SetDeadline on it ([None] when there is no
    such call, [Some None] when it was reset to the zero time). *)
Fixpoint deadline_after (id : ConnId) (tr : list Event)
  : option (option Time) :=
  match tr with
  | [] => None
  | ev :: rest =>
      match deadline_after id rest with
      | Some t => Some t
      | None =>
          match ev with
          | CallSetDeadline id' t => if Nat.eqb id id' then Some t else None
          | _ => None
          end
      end
  end.

(** The stack connection at the bottom of a connection. *)
Fixpoint Conn_id (c : Conn) : option ConnId :=
  match c with
  | nilConn => None
  | stackConn id => Some id
  | tlsConn conn _ _ => Conn_id conn
  end.

(* ===================================================================== *)
(** ** The DPI rule that throttles a flow by TLS SNI *)
(* ===================================================================== *)

(** Modelled from the spec: the declaration of [DPIDirection] is not among
    the sources; "Direction is one of {client->server, server->client}". *)
Inductive DPIDirection : Type :=
| DPIDirectionClientToServer
| DPIDirectionServerToClient.

(** [layers.IPProtocol], a uint8, and the protocol number of TCP. *)
Definition IPProtocol := Z.
Definition IPProtocolTCP : IPProtocol := 6%Z.

(** Modelled from the spec: the declaration of [DissectedPacket] is not
    among the sources; it is "a lazy view over a Frame", represented here by
    what its accessors return for the frame. *)
Record DissectedPacket : Type := {
  TransportProtocol : IPProtocol;
  parseTLSServerName : string * error;
  SourceIPAddress : string;
  SourcePort : Z;
  DestinationIPAddress : string;
  DestinationPort : Z
}.

(** Modelled from the spec: the declaration of [DPIPolicy] is not among the
    sources; its fields are delay, plr and flags, and NONE is the flag set
    with no flag, the zero value. *)
Record DPIPolicy : Type := {
  Delay : Duration;
  Flags : Z;
  PLR : float
}.

Definition DPIFlagsNone : Z := 0%Z.

(** The declaration of [Logger] is not among the sources either; [Filter]
    only calls Infof on it.  A logger is represented by what it has been
    asked to print so far: format and arguments. *)
Inductive LogArg : Type :=
| ArgString (s : string)
| ArgInt (i : Z)
| ArgIPProtocol (p : IPProtocol).

Record LogLine : Type := {
  format : string;
  args : list LogArg
}.

Definition Logger := list LogLine.

Definition Logger_Infof (logger : Logger) (fmt : string) (a : list LogArg)
  : Logger :=
  logger ++ [{| format := fmt; args := a |}].

(** The fields of [DPIThrottleTrafficForTLSSNI] other than the logger,
    which is the state [Filter] acts on. *)
Record DPIThrottleTrafficForTLSSNI : Type := {
  rule_PLR : float;
  rule_SNI : string
}.

(** [func (r *DPIThrottleTrafficForTLSSNI) Filter]. *)
Definition DPIThrottleTrafficForTLSSNI_Filter
  (r : DPIThrottleTrafficForTLSSNI) (direction : DPIDirection)
  (packet : DissectedPacket) (logger : Logger)
  : (option DPIPolicy * bool) * Logger :=
  match direction with
  | DPIDirectionClientToServer =>
      if negb (TransportProtocol packet =? IPProtocolTCP)%Z then
        ((None, false), logger)
      else
        let '(sni, err) := parseTLSServerName packet in
        if negb (is_nil err) then ((None, false), logger)
        else if negb (String.eqb sni (rule_SNI r)) then ((None, false), logger)
        else
          let logger' :=
            Logger_Infof logger
              "netem: dpi: throttling flow %s:%d %s:%d/%s because SNI==%s"
              [ArgString (SourceIPAddress packet);
               ArgInt (SourcePort packet);
               ArgString (DestinationIPAddress packet);
               ArgInt (DestinationPort packet);
               ArgIPProtocol (TransportProtocol packet);
               ArgString sni] in
          let policy := {| Delay := 0%Z; Flags := 0%Z; PLR := rule_PLR r |} in
          ((Some policy, true), logger')
  | DPIDirectionServerToClient => ((None, false), logger)
  end.

(** The packets the rule matches: TCP, with a ClientHello whose server name
    parses and equals the configured SNI. *)
Definition offending (r : DPIThrottleTrafficForTLSSNI)
  (direction : DPIDirection) (packet : DissectedPacket) : Prop :=
  direction = DPIDirectionClientToServer
  /\ TransportProtocol packet = IPProtocolTCP
  /\ snd (parseTLSServerName packet) = nil_error
  /\ fst (parseTLSServerName packet) = rule_SNI r.

(* ===================================================================== *)
(** ** The end of the throttle command *)
(* ===================================================================== *)

(** What the end of [main] of cmd/throttle does once the client and the
    server have delivered their errors: warnings, the explicit close of
    the topology, and the two calls of [netem.Must0]. *)
Inductive ReportEvent : Type :=
| Warnf (line : LogLine)
| TopologyClose
| CallMust0 (err : error).

(** [err.Error()] on an error interface value: on a nil one Go panics. *)
Definition call_Error (err : error) : Outcome string :=
  match err with
  | nil_error => Panicked
  | _ => Returned (error_Error err)
  end.

(** [log.Warnf(format, err.Error())]: the argument is evaluated first. *)
Definition warn_Error (fmt : string) (err : error)
  : Outcome unit * list ReportEvent :=
  match call_Error err with
  | Returned text =>
      (Returned tt, [Warnf {| format := fmt; args := [ArgString text] |}])
  | Panicked => (Panicked, [])
  | Blocked => (Blocked, [])
  end.

(** One statement after another; a statement that does not return ends
    the run. *)
Definition and_then (first next : Outcome unit * list ReportEvent)
  : Outcome unit * list ReportEvent :=
  match first with
  | (Returned _, evs) => (fst next, evs ++ snd next)
  | stopped => stopped
  end.

(** The last statements of [main], from the receipt of [errClient] and
    [errServer] on.  The declaration of [netem.Must0] is not among the
    sources: it is a parameter. *)
Definition throttle_main_report (Must0 : error -> Outcome unit)
  (errClient errServer : error) : Outcome unit * list ReportEvent :=
  and_then
    (if is_nil errClient then (Returned tt, [])
     else warn_Error "RunNDT0Client: %s" errClient)
    (and_then
       (if is_nil errServer then (Returned tt, [])
        else warn_Error "RunNDT0Server: %s" errClient)
       (and_then (Returned tt, [TopologyClose])
          (and_then (Must0 errClient, [CallMust0 errClient])
             (Must0 errServer, [CallMust0 errServer])))).


(* ===================================================================== *)
(** ** The underlying stack and the world a call runs in *)
(* ===================================================================== *)

Section Interfaces.

(** The state of everything outside the facade: the underlying stack, its
    peers, the clock and the scheduler. *)
Variable St : Type.

(** Modelled from the spec: the declaration of [UnderlyingNetwork] is not
    among the sources; the facade "expects a collaborator exposing
    dial_context, listen_tcp, listen_udp, getaddrinfo_lookup_any,
    default_cert_pool".  Each method acts on the outside state; listen_udp
    is left out, no statement below is about it. *)
Record UnderlyingNetwork : Type := {
  Stack_DialContext :
    Context -> string -> string -> St -> (Conn * error) * St;
  Stack_GetaddrinfoLookupANY :
    Context -> string -> St -> (list string * string * error) * St;
  Stack_DefaultCertPool : St -> x509_CertPool * St;
  Stack_ListenTCP : string -> TCPAddr -> St -> (Listener * error) * St
}.

Record Net : Type := { Stack : UnderlyingNetwork }.

(** The world a call runs in: the outside state, the next free address of
    the heap, and the trace of calls made so far. *)
Record World : Type := mkWorld {
  env : St;
  heap : nat;
  trace : list Event
}.

(** The listener [ListenTLS] returns. *)
Record netListenerTLS : Type := {
  config : tls_Config;
  listener : Listener;
  stack : UnderlyingNetwork
}.

End Interfaces.

(* ===================================================================== *)
(** ** A small network to run the facade on *)
(* ===================================================================== *)

(** One server, 10.0.0.1:443, known to the resolver as ndt0.local and
    holding a certificate for that name; empty.local resolves to no
    address.  The outside state is the number of connections handed out so
    far.  Dial, resolver and select all fail with the context's error when
    handed a context that is done. *)

Fixpoint split_last_colon (s : string) : option (string * string) :=
  match s with
  | EmptyString => None
  | String ch rest =>
      match split_last_colon rest with
      | Some (host, port) => Some (String ch host, port)
      | None => if Ascii.eqb ch ":"%char then Some (EmptyString, rest) else None
      end
  end.

(** [net.SplitHostPort] on addresses without brackets and with at most one
    colon. *)
Definition example_SplitHostPort (hostport : string) : string * string * error :=
  match split_last_colon hostport with
  | Some (host, port) => (host, port, nil_error)
  | None => ("", "", errorValue 10 "missing port in address")
  end.

(** [net.ParseIP] on the host names of this network. *)
Definition example_ParseIP (s : string) : option (list Z) :=
  if String.eqb s "10.0.0.1" then Some [10; 0; 0; 1]%Z else None.

Fixpoint has_colon (s : string) : bool :=
  match s with
  | EmptyString => false
  | String ch rest => Ascii.eqb ch ":"%char || has_colon rest
  end.

(** [net.JoinHostPort]: a host with a colon is taken for an IPv6 literal
    and bracketed. *)
Definition example_JoinHostPort (host port : string) : string :=
  if has_colon host then ("[" ++ host ++ "]:" ++ port)%string
  else (host ++ ":" ++ port)%string.

Definition ECONNREFUSED : error := errorValue 111 "connection refused".

Definition example_stack : UnderlyingNetwork nat :=
  {| Stack_DialContext := fun ctx network endpoint s =>
       match ctx_Err ctx with
       | Some why => ((nilConn, ctxReason_error why), s)
       | None =>
           if String.eqb endpoint "10.0.0.1:443"
           then ((stackConn s, nil_error), S s)
           else ((nilConn, ECONNREFUSED), s)
       end;
     Stack_GetaddrinfoLookupANY := fun ctx domain s =>
       match ctx_Err ctx with
       | Some why => (([], "", ctxReason_error why), s)
       | None =>
           if String.eqb domain "ndt0.local"
           then ((["10.0.0.1"], "", nil_error), s)
           else if String.eqb domain "empty.local"
           then (([], "", nil_error), s)
           else (([], "", errorValue 20 "no such host"), s)
       end;
     Stack_DefaultCertPool := fun s => (1, s);
     Stack_ListenTCP := fun network addr s =>
       ((stackListener 0, nil_error), s) |}.

Definition example_net : Net nat := {| Stack := example_stack |}.

(** A second stack, for a caller that cancels right after the resolution:
    the name has two addresses and every dial reports the cancellation. *)
Definition cancelling_stack : UnderlyingNetwork nat :=
  {| Stack_DialContext := fun ctx network endpoint s =>
       ((nilConn, context_Canceled), S s);
     Stack_GetaddrinfoLookupANY := fun ctx domain s =>
       ((["10.0.0.1"; "10.0.0.3"], "", nil_error), s);
     Stack_DefaultCertPool := fun s => (1, s);
     Stack_ListenTCP := fun network addr s =>
       ((stackListener 0, nil_error), s) |}.

Definition cancelling_net : Net nat := {| Stack := cancelling_stack |}.

Definition example_SetDeadline (id : ConnId) (t : option Time) (s : nat)
  : error * nat := (nil_error, s).

Definition example_Close (id : ConnId) (s : nat) : error * nat :=
  (nil_error, s).

Definition example_Accept (l : nat) (s : nat) : (Conn * error) * nat :=
  ((stackConn s, nil_error), S s).

Definition example_Now (s : nat) : Time := 1000%Z.

Definition x509_HostnameError : error :=
  errorValue 30 "x509: certificate is not valid for this name".

(** The client handshake succeeds when the server name is ndt0.local. *)
Definition example_select (tc : Conn) (ctx : Context) (s : nat)
  : Outcome selectCase * nat :=
  match ctx_Err ctx with
  | Some why => (Returned (caseDone why), s)
  | None =>
      match tc with
      | tlsConn _ cfg _ =>
          if String.eqb (ServerName cfg) "ndt0.local"
          then (Returned (caseErrch nil_error), s)
          else (Returned (caseErrch x509_HostnameError), s)
      | _ => (Panicked, s)
      end
  end.

(** The peer of an accepted connection does not speak TLS. *)
Definition example_HandshakeContext (tc : Conn) (ctx : Context) (s : nat)
  : Outcome error * nat :=
  (Returned
     (errorValue 31 "tls: first record does not look like a TLS handshake"),
   s).

Definition example_world : World nat := mkWorld 0 0 [].

(** The rule of the throttling tests; its PLR is the float64 nearest to
    0.1. *)
Definition example_rule : DPIThrottleTrafficForTLSSNI :=
  {| rule_PLR := 0x1.999999999999ap-4%float; rule_SNI := "ndt0.local" |}.


Definition example_deadline : Context :=
  {| ctx_Deadline := Some 5000%Z; ctx_Err := None |}.

(** A listener that has been closed: its accept fails. *)
Definition closed_Accept (l : nat) (s : nat) : (Conn * error) * nat :=
  ((nilConn, errorValue 40 "use of closed network connection"), s).

Definition example_listener : netListenerTLS nat :=
  {| config := {| RootCAs := 0; NextProtos := []; ServerName := "" |};
     listener := stackListener 0;
     stack := example_stack |}.

(** A ClientHello for ndt0.local from the given client endpoint. *)
Definition example_hello (src : string) (sport : Z) : DissectedPacket :=
  {| TransportProtocol := IPProtocolTCP;
     parseTLSServerName := ("ndt0.local", nil_error);
     SourceIPAddress := src; SourcePort := sport;
     DestinationIPAddress := "10.0.0.1"; DestinationPort := 443%Z |}.

(** A [Must0] that panics on a non-nil error. *)
Definition example_Must0 (err : error) : Outcome unit :=
  if is_nil err then Returned tt else Panicked.


(* ===================================================================== *)
(** ** The facade over an arbitrary underlying stack *)
(* ===================================================================== *)

Section Facade.

(** The state of everything outside the facade: the underlying stack, its
    peers, the clock and the scheduler. *)
Variable St : Type.

(** The standard library's pure helpers. *)
Variable net_SplitHostPort : string -> string * string * error.
Variable net_ParseIP : string -> option (list Z).
Variable net_JoinHostPort : string -> string -> string.

(** The connections and listeners the stack hands out, the clock, and the
    TLS library running over them. *)
Variable conn_SetDeadline : ConnId -> option Time -> St -> error * St.
Variable conn_Close : ConnId -> St -> error * St.
Variable listener_Accept : nat -> St -> (Conn * error) * St.
Variable time_Now : St -> Time.
Variable tls_HandshakeContext : Conn -> Context -> St -> Outcome error * St.

(** Which case the select statement of [tlsHandshake] takes once the
    handshake goroutine runs: decided by the peer, the scheduler and
    whoever cancels the context. *)
Variable select_case : Conn -> Context -> St -> Outcome selectCase * St.

(** The remaining methods of the stack's listeners: Addr, as network and
    address text, and Close. *)
Variable listener_Addr : nat -> St -> string * string.
Variable listener_Close : nat -> St -> error * St.

(** Computations: state passing over [World], ending in an [Outcome]. *)
Definition M (A : Type) : Type := World St -> Outcome A * World St.

Definition ret {A : Type} (a : A) : M A := fun w => (Returned a, w).

Definition bind {A B : Type} (m : M A) (k : A -> M B) : M B :=
  fun w =>
    match m w with
    | (Returned a, w') => k a w'
    | (Panicked, w') => (Panicked, w')
    | (Blocked, w') => (Blocked, w')
    end.

Notation "x <- m ;; k" := (bind m (fun x => k))
  (at level 61, m at next level, right associativity).
Notation "' pat <- m ;; k" :=
  (bind m (fun x => match x with pat => k end))
  (at level 61, pat pattern, m at next level, right associativity).
Notation "m ;;; k" := (bind m (fun _ => k))
  (at level 61, right associativity).

Definition panic {A : Type} : M A := fun w => (Panicked, w).

Definition emit (ev : Event) : M unit :=
  fun w => (Returned tt, mkWorld (env w) (heap w) (trace w ++ [ev])).

Definition call {A : Type} (f : St -> A * St) : M A :=
  fun w => let (a, s) := f (env w) in
           (Returned a, mkWorld s (heap w) (trace w)).

Definition call_outcome {A : Type} (f : St -> Outcome A * St) : M A :=
  fun w => let (o, s) := f (env w) in (o, mkWorld s (heap w) (trace w)).

(** Allocation of a fresh object. *)
Definition new : M nat :=
  fun w => (Returned (heap w), mkWorld (env w) (S (heap w)) (trace w)).

(** [fmt.Errorf("%s: %w", endpoint, err)]. *)
Definition fmt_Errorf_wrap (endpoint : string) (err : error) : M error :=
  addr <- new ;;
  ret (wrapError addr (endpoint ++ ": " ++ error_Error err)%string err).

(** Methods of [net.Conn] values. *)
Fixpoint Conn_SetDeadline (c : Conn) (t : option Time) : M error :=
  match c with
  | nilConn => panic
  | stackConn id => emit (CallSetDeadline id t) ;;; call (conn_SetDeadline id t)
  | tlsConn conn _ _ => Conn_SetDeadline conn t
  end.

(** Close of a [*tls.Conn] is represented by the Close of the connection
    under it; the facade only ever closes the connection it dialled or
    accepted. *)
Fixpoint Conn_Close (c : Conn) : M error :=
  match c with
  | nilConn => panic
  | stackConn id => emit (CallClose id) ;;; call (conn_Close id)
  | tlsConn conn _ _ => Conn_Close conn
  end.

Definition Listener_Accept (l : Listener) : M (Conn * error) :=
  match l with
  | nilListener => panic
  | stackListener id => emit (CallAccept id) ;;; call (listener_Accept id)
  end.

(** [func (n *Net) LookupHost]. *)
Definition Net_LookupHost (n : Net St) (ctx : Context) (domain : string)
  : M (list string * error) :=
  emit (CallGetaddrinfoLookupANY ctx domain) ;;;
  ' (addrs, _, err) <- call (Stack_GetaddrinfoLookupANY (Stack n) ctx domain) ;;
  ret (addrs, err).

(** [func (n *Net) LookupCNAME]. *)
Definition Net_LookupCNAME (n : Net St) (ctx : Context) (domain : string)
  : M (string * error) :=
  emit (CallGetaddrinfoLookupANY ctx domain) ;;;
  ' (_, cname, err) <- call (Stack_GetaddrinfoLookupANY (Stack n) ctx domain) ;;
  ret (cname, err).

(** The loop of [DialContext] over the addresses left to try; [errlist]
    is the address of the [ErrDial] and [Errors] its field so far. *)
Fixpoint dialEach (n : Net St) (ctx : Context) (network port : string)
  (addresses : list string) (errlist : nat) (Errors : list error)
  : M (Conn * error) :=
  match addresses with
  | [] => ret (nilConn, ErrDial errlist Errors)
  | ip :: rest =>
      let endpoint := net_JoinHostPort ip port in
      emit (CallDialContext ctx network endpoint) ;;;
      ' (conn, err) <- call (Stack_DialContext (Stack n) ctx network endpoint) ;;
      if is_nil err then ret (conn, nil_error)
      else
        e <- fmt_Errorf_wrap endpoint err ;;
        dialEach n ctx network port rest errlist (Errors ++ [e])
  end.

(** [func (n *Net) DialContext]. *)
Definition Net_DialContext (n : Net St) (ctx : Context) (network address : string)
  : M (Conn * error) :=
  let '(domain, port, err) := net_SplitHostPort address in
  if is_nil err then
    match net_ParseIP domain with
    | Some _ =>
        errlist <- new ;;
        dialEach n ctx network port [domain] errlist []
    | None =>
        ' (addresses, err) <- Net_LookupHost n ctx domain ;;
        if is_nil err then
          errlist <- new ;;
          dialEach n ctx network port addresses errlist []
        else ret (nilConn, err)
    end
  else ret (nilConn, err).

(** [func (n *Net) tlsHandshake]; the deferred call runs when the function
    returns. *)
Definition Net_tlsHandshake (n : Net St) (ctx : Context) (tc : Conn) : M error :=
  let handshake_or_done : M error :=
    emit (GoHandshakeContext tc ctx) ;;;
    c <- call_outcome (select_case tc ctx) ;;
    emit (Select c) ;;;
    match c with
    | caseDone why => ret (ctxReason_error why)
    | caseErrch err => ret err
    end in
  match ctx_Deadline ctx with
  | Some deadline =>
      Conn_SetDeadline tc (Some deadline) ;;;
      err <- handshake_or_done ;;
      Conn_SetDeadline tc None ;;;
      ret err
  | None => handshake_or_done
  end.

(** [func (n *Net) DialTLSContext]. *)
Definition Net_DialTLSContext (n : Net St) (ctx : Context)
  (network address : string) : M (Conn * error) :=
  let '(hostname, _, err) := net_SplitHostPort address in
  if is_nil err then
    ' (conn, err) <- Net_DialContext n ctx network address ;;
    if is_nil err then
      emit CallDefaultCertPool ;;;
      pool <- call (Stack_DefaultCertPool (Stack n)) ;;
      let config :=
        {| RootCAs := pool; NextProtos := []; ServerName := hostname |} in
      let tc := tlsConn conn config true in
      err <- Net_tlsHandshake n ctx tc ;;
      if is_nil err then ret (tc, nil_error)
      else Conn_Close conn ;;; ret (nilConn, err)
    else ret (nilConn, err)
  else ret (nilConn, err).

(** [func (n *Net) ListenTCP] and [func (n *Net) ListenTLS]. *)
Definition Net_ListenTCP (n : Net St) (network : string) (addr : TCPAddr)
  : M (Listener * error) :=
  emit (CallListenTCP network addr) ;;;
  call (Stack_ListenTCP (Stack n) network addr).

Definition Net_ListenTLS (n : Net St) (network : string) (laddr : TCPAddr)
  (config : tls_Config) : M (option (netListenerTLS St) * error) :=
  ' (listener, err) <- Net_ListenTCP n network laddr ;;
  if is_nil err then
    ret (Some {| config := config; listener := listener; stack := Stack n |},
         nil_error)
  else ret (None, err).

(** [func (lw *netListenerTLS) Accept]; the deferred cancel only releases
    the timer of the context. *)
Definition netListenerTLS_Accept (lw : netListenerTLS St) : M (Conn * error) :=
  ' (conn, err) <- Listener_Accept (listener lw) ;;
  if is_nil err then
    let tc := tlsConn conn (config lw) false in
    now <- call (fun s => (time_Now s, s)) ;;
    let ctx := context_WithTimeout context_Background (10 * time_Second)%Z now in
    emit (CallHandshakeContext tc ctx) ;;;
    err <- call_outcome (tls_HandshakeContext tc ctx) ;;
    if is_nil err then ret (tc, nil_error)
    else Conn_Close conn ;;; ret (nilConn, err)
  else ret (nilConn, err).

(** [func (lw *netListenerTLS) Addr] and [func (lw *netListenerTLS) Close]. *)
Definition netListenerTLS_Addr (lw : netListenerTLS St) : M (string * string) :=
  match listener lw with
  | nilListener => panic
  | stackListener id => call (fun s => (listener_Addr id s, s))
  end.

Definition netListenerTLS_Close (lw : netListenerTLS St) : M error :=
  match listener lw with
  | nilListener => panic
  | stackListener id => call (listener_Close id)
  end.

(* --------------------------------------------------------------------- *)
(** *** Vocabulary of the statements about [DialContext] *)

(** The dial attempts on the given IPs, made in order on the stack from
    state [s], all fail: [log] pairs each endpoint with the error the stack
    returned for it, and [s'] is the state after the last attempt. *)
Inductive attempts_fail (n : Net St) (ctx : Context) (network port : string)
  : list string -> St -> list (string * error) -> St -> Prop :=
| attempts_fail_nil s :
    attempts_fail n ctx network port [] s [] s
| attempts_fail_cons ip rest s conn err s1 log s2 :
    Stack_DialContext (Stack n) ctx network (net_JoinHostPort ip port) s
      = ((conn, err), s1) ->
    err <> nil_error ->
    attempts_fail n ctx network port rest s1 log s2 ->
    attempts_fail n ctx network port (ip :: rest) s
      ((net_JoinHostPort ip port, err) :: log) s2.

(** [errs] holds one error per logged attempt, in the same order, each
    wrapping the stack's error under the text "<endpoint>: <error>". *)
Definition annotated (log : list (string * error)) (errs : list error) : Prop :=
  Forall2
    (fun (attempt : string * error) (e : error) =>
       exists addr,
         e = wrapError addr
               (fst attempt ++ ": " ++ error_Error (snd attempt))%string
               (snd attempt))
    log errs.

(** The stack dial calls for the given IPs, in order. *)
Definition dial_events (ctx : Context) (network port : string)
  (ips : list string) : list Event :=
  map (fun ip => CallDialContext ctx network (net_JoinHostPort ip port)) ips.

(** What trying [addresses] from world [w] comes to: either some address is
    the first whose dial succeeds, the addresses up to it are the ones
    dialled and its connection is returned with a nil error; or every
    address is dialled and fails, and a nil connection is returned with an
    [ErrDial] of the annotated errors. *)
Definition dial_outcome (n : Net St) (ctx : Context) (network port : string)
  (addresses : list string) (w : World St)
  (res : Outcome (Conn * error) * World St) : Prop :=
  (exists pre ip post log s1 conn s2,
      addresses = pre ++ ip :: post /\
      attempts_fail n ctx network port pre (env w) log s1 /\
      Stack_DialContext (Stack n) ctx network (net_JoinHostPort ip port) s1
        = ((conn, nil_error), s2) /\
      fst res = Returned (conn, nil_error) /\
      env (snd res) = s2 /\
      trace (snd res) = trace w ++ dial_events ctx network port (pre ++ [ip]))
  \/
  (exists log s1 errlist errs,
      attempts_fail n ctx network port addresses (env w) log s1 /\
      annotated log errs /\
      fst res = Returned (nilConn, ErrDial errlist errs) /\
      env (snd res) = s1 /\
      trace (snd res) = trace w ++ dial_events ctx network port addresses).



(** [DialContext] on [address] gets to try [addresses] on [port] from
    world [w1]: the address splits, and either its host is a literal IP,
    the only address, and nothing has been called yet, or the resolver has
    been called and has returned [addresses] with a nil error. *)
Definition tries (n : Net St) (ctx : Context) (address : string) (w : World St)
  (port : string) (addresses : list string) (w1 : World St) : Prop :=
  exists domain,
    net_SplitHostPort address = (domain, port, nil_error)
    /\ ((net_ParseIP domain <> None /\ addresses = [domain] /\ w1 = w)
        \/ (net_ParseIP domain = None
            /\ exists cname s1,
                Stack_GetaddrinfoLookupANY (Stack n) ctx domain (env w)
                  = ((addresses, cname, nil_error), s1)
                /\ w1 = mkWorld s1 (heap w)
                          (trace w ++ [CallGetaddrinfoLookupANY ctx domain]))).

(** The text [DialContext] gives the error of one attempt. *)
Definition attempt_message (attempt : string * error) : string :=
  (fst attempt ++ ": " ++ error_Error (snd attempt))%string.

(** The calls [DialContext] may make: the resolver and the dial. *)
Definition resolver_or_dial (ev : Event) : Prop :=
  match ev with
  | CallGetaddrinfoLookupANY _ _ => True
  | CallDialContext _ _ _ => True
  | _ => False
  end.

(* --------------------------------------------------------------------- *)
(** *** Vocabulary of the statements about [DialTLSContext] *)

(** The error [tlsHandshake] returns for the case its select received. *)
Definition selected_error (c : selectCase) : error :=
  match c with
  | caseDone why => ctxReason_error why
  | caseErrch err => err
  end.

(** The client connection [DialTLSContext] builds over the dialled
    connection [conn], from the outside state [s] left by the dial. *)
Definition client_tls (n : Net St) (hostname : string) (conn : Conn) (s : St)
  : Conn :=
  tlsConn conn
    {| RootCAs := fst (Stack_DefaultCertPool (Stack n) s);
       NextProtos := [];
       ServerName := hostname |}
    true.

(** The outside state in which the select of [tlsHandshake] is reached,
    from the state [s] left by the dial on connection [id]. *)
Definition state_at_select (n : Net St) (ctx : Context) (id : ConnId) (s : St)
  : St :=
  let s2 := snd (Stack_DefaultCertPool (Stack n) s) in
  match ctx_Deadline ctx with
  | Some d => snd (conn_SetDeadline id (Some d) s2)
  | None => s2
  end.

(** The calls of one [tlsHandshake] on [tc], over stack connection [id],
    whose select received [c]. *)
Definition handshake_events (id : ConnId) (ctx : Context) (tc : Conn)
  (c : selectCase) : list Event :=
  match ctx_Deadline ctx with
  | Some d =>
      [CallSetDeadline id (Some d); GoHandshakeContext tc ctx; Select c;
       CallSetDeadline id None]
  | None => [GoHandshakeContext tc ctx; Select c]
  end.

(* ===================================================================== *)
(** ** Properties *)
(* ===================================================================== *)

(* --------------------------------------------------------------------- *)
(** *** Properties of [errors.Is] on aggregates *)

Lemma is_ErrDial a errs target :
  is_ (ErrDial a errs) target =
  error_eqb (ErrDial a errs) target || ErrDial_Is errs target.
Proof.
  cbn [is_]. destruct (error_eqb (ErrDial a errs) target); [reflexivity|].
  reflexivity.
Qed.

Lemma is_wrapError a msg err target :
  err <> nil_error ->
  is_ (wrapError a msg err) target =
  error_eqb (wrapError a msg err) target || is_ err target.
Proof.
  intros Hnn. cbn [is_].
  destruct (error_eqb (wrapError a msg err) target); [reflexivity|].
  destruct err; [congruence| reflexivity ..].
Qed.

Lemma errors_Is_nonnil err target :
  err <> nil_error -> target <> nil_error ->
  errors_Is err target = is_ err target.
Proof.
  intros He Ht. unfold errors_Is.
  destruct err; [congruence|..]; destruct target; congruence || reflexivity.
Qed.

Lemma ErrDial_Is_spec errs target :
  ErrDial_Is errs target = true <->
  exists child, In child errs /\ errors_Is child target = true.
Proof. unfold ErrDial_Is. apply existsb_exists. Qed.

(** C8, as stated, fails on the code: [errors.Is] first compares the error
    with the target, so an aggregate matches itself, even with no child. *)
Lemma errors_Is_empty_ErrDial_matches_itself :
  ~ (forall (a : nat) (errs : list error) (t : error),
        errors_Is (ErrDial a errs) t = true <->
        exists child, In child errs /\ errors_Is child t = true).
Proof.
  intros H.
  destruct (proj1 (H 0 [] (ErrDial 0 [])) eq_refl) as [child [Hin _]].
  exact Hin.
Qed.

(** C8, amended: the Is method of an aggregate holds exactly when
    [errors.Is] holds for one of its children, so on an empty aggregate it
    holds for no target; [errors.Is] on the aggregate holds exactly when the
    target is the aggregate itself or the target is not nil and [errors.Is]
    holds for one of the children. *)
Theorem ErrDial_Is_matches_children (a : nat) (errs : list error) (t : error) :
  (ErrDial_Is errs t = true <->
   exists child, In child errs /\ errors_Is child t = true)
  /\ (errors_Is (ErrDial a errs) t = true <->
      error_eqb (ErrDial a errs) t = true \/
      (t <> nil_error /\
       exists child, In child errs /\ errors_Is child t = true))
  /\ ErrDial_Is [] t = false.
Proof.
  split; [apply ErrDial_Is_spec|]. split; [|reflexivity].
  destruct (is_nil t) eqn:Ht.
  - destruct t; try discriminate. cbn. split.
    + discriminate.
    + intros [H | [H _]]; [discriminate | congruence].
  - assert (Hnn : t <> nil_error) by (intros ->; discriminate).
    rewrite errors_Is_nonnil by (assumption || discriminate).
    rewrite is_ErrDial, orb_true_iff, ErrDial_Is_spec.
    split; (intros [H | H]; [left; exact H | right]).
    + split; assumption.
    + apply H.
Qed.

(* --------------------------------------------------------------------- *)
(** *** [DialContext] *)

Ltac run := unfold bind, ret, emit, call, call_outcome, new, panic; cbn.

Lemma is_nil_true e : is_nil e = true -> e = nil_error.
Proof. destruct e; (reflexivity || discriminate). Qed.

Lemma is_nil_false e : is_nil e = false -> e <> nil_error.
Proof. intros H ->. discriminate. Qed.

(** The loop: from any accumulated [Errors], it either stops at the first
    address whose dial succeeds or appends one annotated error per
    address. *)
Lemma dialEach_outcome n ctx network port addresses :
  forall errlist Errors w,
    (exists pre ip post log s1 conn s2 h,
        addresses = pre ++ ip :: post /\
        attempts_fail n ctx network port pre (env w) log s1 /\
        Stack_DialContext (Stack n) ctx network (net_JoinHostPort ip port) s1
          = ((conn, nil_error), s2) /\
        dialEach n ctx network port addresses errlist Errors w =
          (Returned (conn, nil_error),
           mkWorld s2 h
             (trace w ++ dial_events ctx network port (pre ++ [ip]))))
    \/
    (exists log s1 errs h,
        attempts_fail n ctx network port addresses (env w) log s1 /\
        annotated log errs /\
        dialEach n ctx network port addresses errlist Errors w =
          (Returned (nilConn, ErrDial errlist (Errors ++ errs)),
           mkWorld s1 h
             (trace w ++ dial_events ctx network port addresses))).
Proof.
  induction addresses as [|ip rest IH]; intros errlist Errors w.
  - right. exists [], (env w), [], (heap w). split; [constructor|].
    split; [constructor|]. cbn. rewrite !app_nil_r. destruct w; reflexivity.
  - cbn [dialEach]. run.
    destruct (Stack_DialContext (Stack n) ctx network
                (net_JoinHostPort ip port) (env w)) as [[conn err] s1] eqn:Hd.
    cbn. destruct (is_nil err) eqn:Hnil.
    + apply is_nil_true in Hnil. subst err. left.
      exists [], ip, rest, [], (env w), conn, s1, (heap w).
      repeat split; [constructor | exact Hd].
    + apply is_nil_false in Hnil. unfold fmt_Errorf_wrap. run.
      set (e := wrapError (heap w) _ err).
      set (w1 := mkWorld s1 (S (heap w)) _).
      destruct (IH errlist (Errors ++ [e]) w1)
        as [(pre & ip' & post & log & s2 & conn' & s3 & h & -> & Hf & Hok & Hrun)
           |(log & s2 & errs & h & Hf & Han & Hrun)].
      * left. exists (ip :: pre), ip', post,
          ((net_JoinHostPort ip port, err) :: log), s2, conn', s3, h.
        repeat split; [econstructor; eassumption | exact Hok |].
        rewrite Hrun. subst w1. cbn. rewrite <- app_assoc. reflexivity.
      * right. exists ((net_JoinHostPort ip port, err) :: log), s2,
          (e :: errs), h.
        split; [econstructor; eassumption|]. split.
        -- constructor; [exists (heap w); reflexivity | exact Han].
        -- rewrite Hrun. subst w1. cbn. rewrite <- !app_assoc. reflexivity.
Qed.

Lemma dialEach_dial_outcome n ctx network port addresses errlist w :
  dial_outcome n ctx network port addresses w
    (dialEach n ctx network port addresses errlist [] w).
Proof.
  destruct (dialEach_outcome n ctx network port addresses errlist [] w)
    as [(pre & ip & post & log & s1 & conn & s2 & h & Heq & Hf & Hok & Hrun)
       |(log & s1 & errs & h & Hf & Han & Hrun)]; rewrite Hrun.
  - left. exists pre, ip, post, log, s1, conn, s2. repeat split; assumption.
  - right. exists log, s1, errlist, errs. repeat split; assumption.
Qed.

Lemma dial_outcome_single n ctx network port ip w res :
  dial_outcome n ctx network port [ip] w res ->
  trace (snd res) =
  trace w ++ [CallDialContext ctx network (net_JoinHostPort ip port)].
Proof.
  intros [(pre & ip' & post & log & s1 & conn & s2 & Heq & _ & _ & _ & _ & Htr)
         |(log & s1 & errlist & errs & _ & _ & _ & _ & Htr)];
    rewrite Htr; [|reflexivity].
  destruct pre as [|x pre]; cbn in Heq.
  - injection Heq as -> _. reflexivity.
  - injection Heq as _ Heq. destruct pre; discriminate.
Qed.

(** C1: [DialContext] splits the address; a literal IP is dialled alone
    and without any resolver call; any other host is resolved through the
    stack and the resolved IPs are dialled in order; the first successful
    connection is returned with a nil error, and when every attempt fails a
    nil connection comes with an [ErrDial] holding one error per attempt,
    each annotated with its endpoint, in attempt order. *)
Theorem Net_DialContext_correct n ctx network address w :
  match net_SplitHostPort address with
  | (domain, port, err) =>
      if is_nil err then
        match net_ParseIP domain with
        | Some _ =>
            dial_outcome n ctx network port [domain] w
              (Net_DialContext n ctx network address w)
            /\ trace (snd (Net_DialContext n ctx network address w)) =
               trace w ++
               [CallDialContext ctx network (net_JoinHostPort domain port)]
        | None =>
            match Stack_GetaddrinfoLookupANY (Stack n) ctx domain (env w) with
            | (addresses, _, lookup_err, s1) =>
                let w1 :=
                  mkWorld s1 (heap w)
                    (trace w ++ [CallGetaddrinfoLookupANY ctx domain]) in
                if is_nil lookup_err then
                  dial_outcome n ctx network port addresses w1
                    (Net_DialContext n ctx network address w)
                else
                  Net_DialContext n ctx network address w =
                  (Returned (nilConn, lookup_err), w1)
            end
        end
      else
        Net_DialContext n ctx network address w = (Returned (nilConn, err), w)
  end.
Proof.
  unfold Net_DialContext.
  destruct (net_SplitHostPort address) as [[domain port] err].
  destruct (is_nil err); [|reflexivity].
  destruct (net_ParseIP domain) as [ip|].
  - assert (H : dial_outcome n ctx network port [domain] w
                  ((errlist <- new ;;
                    dialEach n ctx network port [domain] errlist []) w)).
    { unfold bind at 1, new.
      pose proof (dialEach_dial_outcome n ctx network port [domain] (heap w)
                    (mkWorld (env w) (S (heap w)) (trace w))) as H.
      exact H. }
    split; [exact H|]. exact (dial_outcome_single H).
  - unfold Net_LookupHost. run.
    destruct (Stack_GetaddrinfoLookupANY (Stack n) ctx domain (env w))
      as [[[addresses cname] lookup_err] s1].
    cbn. destruct (is_nil lookup_err); [|reflexivity].
    apply (dialEach_dial_outcome n ctx network port addresses (heap w)
             (mkWorld s1 (S (heap w))
                (trace w ++ [CallGetaddrinfoLookupANY ctx domain]))).
Qed.






(** When every attempt fails, for whatever reason, the loop dials every
    address. *)
Lemma dialEach_all_fail n ctx network port addresses s log s1 :
  attempts_fail n ctx network port addresses s log s1 ->
  forall errlist Errors h tr,
  exists errs h',
    annotated log errs /\
    dialEach n ctx network port addresses errlist Errors (mkWorld s h tr) =
    (Returned (nilConn, ErrDial errlist (Errors ++ errs)),
     mkWorld s1 h' (tr ++ dial_events ctx network port addresses)).
Proof.
  induction 1 as [s|ip rest s conn err s1 log s2 Hd Herr Hf IH];
    intros errlist Errors h tr.
  - exists [], h. split; [constructor|]. cbn. rewrite !app_nil_r. reflexivity.
  - cbn [dialEach]. run. rewrite Hd. cbn.
    destruct (is_nil err) eqn:Hnil; [apply is_nil_true in Hnil; congruence|].
    unfold fmt_Errorf_wrap. run.
    edestruct IH as (errs & h' & Han & Hrun). rewrite Hrun.
    eexists (_ :: errs), h'. split.
    + constructor; [exists h; reflexivity | exact Han].
    + rewrite <- !app_assoc. reflexivity.
Qed.



(* --------------------------------------------------------------------- *)
(** *** [DialTLSContext] and [tlsHandshake] *)

Lemma Conn_SetDeadline_run c id t w :
  Conn_id c = Some id ->
  Conn_SetDeadline c t w =
  (Returned (fst (conn_SetDeadline id t (env w))),
   mkWorld (snd (conn_SetDeadline id t (env w))) (heap w)
     (trace w ++ [CallSetDeadline id t])).
Proof.
  induction c as [|id'|c IH cfg role]; cbn; intros H; try discriminate.
  - injection H as ->. run. destruct (conn_SetDeadline id t (env w)).
    reflexivity.
  - exact (IH H).
Qed.

Lemma Conn_SetDeadline_panics c t w :
  Conn_id c = None -> Conn_SetDeadline c t w = (Panicked, w).
Proof.
  induction c as [|id'|c IH cfg role]; cbn; intros H;
    [reflexivity | discriminate | exact (IH H)].
Qed.

Lemma Conn_Close_run c id w :
  Conn_id c = Some id ->
  Conn_Close c w =
  (Returned (fst (conn_Close id (env w))),
   mkWorld (snd (conn_Close id (env w))) (heap w) (trace w ++ [CallClose id])).
Proof.
  induction c as [|id'|c IH cfg role]; cbn; intros H; try discriminate.
  - injection H as ->. run. destruct (conn_Close id (env w)). reflexivity.
  - exact (IH H).
Qed.

(** A [tlsHandshake] whose select receives [c] returns the error of that
    case, after exactly the calls of [handshake_events]. *)
Lemma Net_tlsHandshake_run n ctx tc id w c s :
  Conn_id tc = Some id ->
  select_case tc ctx
    match ctx_Deadline ctx with
    | Some d => snd (conn_SetDeadline id (Some d) (env w))
    | None => env w
    end = (Returned c, s) ->
  exists s',
    Net_tlsHandshake n ctx tc w =
    (Returned (selected_error c),
     mkWorld s' (heap w) (trace w ++ handshake_events id ctx tc c)).
Proof.
  intros Hid Hsel. unfold Net_tlsHandshake, handshake_events.
  destruct (ctx_Deadline ctx) as [d|].
  - unfold bind at 1. rewrite Conn_SetDeadline_run with (id := id) by exact Hid. run.
    rewrite Hsel. cbn.
    assert (Hret : forall w0,
               match c with
               | caseDone why => ret (ctxReason_error why)
               | caseErrch err => ret err
               end w0 = (Returned (selected_error c), w0))
      by (intros; destruct c; reflexivity).
    rewrite Hret. rewrite Conn_SetDeadline_run with (id := id) by exact Hid. cbn.
    eexists. rewrite <- !app_assoc. reflexivity.
  - run. rewrite Hsel. cbn. exists s.
    destruct c; cbn; rewrite <- !app_assoc; reflexivity.
Qed.

Lemma bind_returned {A B : Type} (m : M A) (k : A -> M B) w a w' :
  m w = (Returned a, w') -> bind m k w = k a w'.
Proof. intros H. unfold bind. rewrite H. reflexivity. Qed.

(** The whole of a [DialTLSContext] whose inner dial succeeds with a
    connection over stack connection [id] and whose select receives [c]. *)
Lemma Net_DialTLSContext_run n ctx network address w hostname port conn id w1 c s :
  net_SplitHostPort address = (hostname, port, nil_error) ->
  Net_DialContext n ctx network address w = (Returned (conn, nil_error), w1) ->
  Conn_id conn = Some id ->
  select_case (client_tls n hostname conn (env w1)) ctx
    (state_at_select n ctx id (env w1)) = (Returned c, s) ->
  exists w',
    Net_DialTLSContext n ctx network address w =
    (Returned (if is_nil (selected_error c)
               then (client_tls n hostname conn (env w1), nil_error)
               else (nilConn, selected_error c)), w')
    /\ trace w' =
       trace w1 ++
       CallDefaultCertPool
       :: handshake_events id ctx (client_tls n hostname conn (env w1)) c
       ++ (if is_nil (selected_error c) then [] else [CallClose id]).
Proof.
  intros Hsplit Hdial Hid Hsel.
  unfold Net_DialTLSContext. rewrite Hsplit. cbn [is_nil].
  erewrite bind_returned by exact Hdial. cbn [is_nil].
  unfold client_tls, state_at_select in *.
  unfold bind at 1, emit. unfold bind at 1, call. cbn [env heap trace].
  destruct (Stack_DefaultCertPool (Stack n) (env w1)) as [pool s2].
  cbn [fst snd] in *.
  set (tc := tlsConn conn _ true) in *.
  edestruct (@Net_tlsHandshake_run n ctx tc id
               (mkWorld s2 (heap w1) (trace w1 ++ [CallDefaultCertPool])) c s)
    as [s' Hrun]; [exact Hid | exact Hsel |].
  erewrite bind_returned by exact Hrun.
  destruct (is_nil (selected_error c)).
  - eexists. split; [reflexivity|]. cbn [trace].
    rewrite <- !app_assoc, app_nil_r. reflexivity.
  - rewrite bind_returned with (a := fst (conn_Close id s'))
      (w' := mkWorld (snd (conn_Close id s')) (heap w1)
               ((trace w1 ++ [CallDefaultCertPool])
                ++ handshake_events id ctx tc c ++ [CallClose id])).
    + eexists. split; [reflexivity|]. cbn [trace].
      rewrite <- !app_assoc. reflexivity.
    + rewrite Conn_Close_run with (id := id) by exact Hid. cbn [env heap trace].
      rewrite <- !app_assoc. reflexivity.
Qed.



(** C6: the client handshake of [DialTLSContext] runs on a [tls.Client]
    whose configuration has the pool returned by the stack's
    [DefaultCertPool] as root CAs and the host of the address, as split
    before any resolution, as server name; with a context deadline the
    connection's deadline is first set to it; the handshake is started in
    the background with the caller's context, and the call returns the
    error of whichever the select receives, handshake result or done
    context. *)
Theorem Net_DialTLSContext_handshake
  n ctx network address w hostname port conn id w1 c s :
  net_SplitHostPort address = (hostname, port, nil_error) ->
  Net_DialContext n ctx network address w = (Returned (conn, nil_error), w1) ->
  Conn_id conn = Some id ->
  let tc :=
    tlsConn conn
      {| RootCAs := fst (Stack_DefaultCertPool (Stack n) (env w1));
         NextProtos := [];
         ServerName := hostname |}
      true in
  select_case tc ctx (state_at_select n ctx id (env w1)) = (Returned c, s) ->
  exists res w' closing,
    Net_DialTLSContext n ctx network address w = (Returned res, w')
    /\ snd res = selected_error c
    /\ (selected_error c = nil_error -> fst res = tc)
    /\ trace w' =
       trace w1 ++
       CallDefaultCertPool ::
       match ctx_Deadline ctx with
       | Some d =>
           [CallSetDeadline id (Some d); GoHandshakeContext tc ctx; Select c;
            CallSetDeadline id None]
       | None => [GoHandshakeContext tc ctx; Select c]
       end ++ closing
    /\ (closing = [] \/ closing = [CallClose id]).
Proof.
  intros Hsplit Hdial Hid tc Hsel.
  destruct (@Net_DialTLSContext_run n ctx network address w hostname port
              conn id w1 c s Hsplit Hdial Hid Hsel)
    as (w' & Hrun & Htr).
  fold tc in Htr. unfold handshake_events in Htr.
  destruct (is_nil (selected_error c)) eqn:Hnil.
  - apply is_nil_true in Hnil.
    exists (client_tls n hostname conn (env w1), nil_error), w', [].
    split; [exact Hrun|]. split; [symmetry; exact Hnil|].
    split; [reflexivity|]. split; [exact Htr | left; reflexivity].
  - apply is_nil_false in Hnil.
    exists (nilConn, selected_error c), w', [CallClose id].
    split; [exact Hrun|]. split; [reflexivity|].
    split; [congruence|]. split; [exact Htr | right; reflexivity].
Qed.


(** With a context deadline, a [tlsHandshake] that returns has set the
    deadline, run the handshake and reset the deadline, in this order. *)
Lemma Net_tlsHandshake_returned n ctx tc w d err w' :
  ctx_Deadline ctx = Some d ->
  Net_tlsHandshake n ctx tc w = (Returned err, w') ->
  exists id c,
    Conn_id tc = Some id
    /\ err = selected_error c
    /\ trace w' =
       trace w ++
       [CallSetDeadline id (Some d); GoHandshakeContext tc ctx; Select c;
        CallSetDeadline id None].
Proof.
  intros Hd. unfold Net_tlsHandshake. rewrite Hd.
  destruct (Conn_id tc) as [id|] eqn:Hid.
  - unfold bind at 1.
    rewrite Conn_SetDeadline_run with (id := id) by exact Hid. run.
    destruct (select_case tc ctx (snd (conn_SetDeadline id (Some d) (env w))))
      as [[c| |] s]; cbn; try discriminate.
    assert (Hret : forall w0,
               match c with
               | caseDone why => ret (ctxReason_error why)
               | caseErrch e => ret e
               end w0 = (Returned (selected_error c), w0))
      by (intros; destruct c; reflexivity).
    rewrite Hret. rewrite Conn_SetDeadline_run with (id := id) by exact Hid.
    cbn. intros H. injection H as <- <-. exists id, c.
    split; [reflexivity|]. split; [reflexivity|]. cbn.
    rewrite <- !app_assoc. reflexivity.
  - unfold bind at 1. rewrite Conn_SetDeadline_panics by exact Hid.
    discriminate.
Qed.


(* --------------------------------------------------------------------- *)
(** *** [ListenTLS] and [Accept] *)

(** The listener [ListenTLS] returns wraps the stack's listener and keeps
    the caller's configuration. *)
Lemma Net_ListenTLS_listener n network laddr config w l s1 :
  Stack_ListenTCP (Stack n) network laddr (env w) = ((l, nil_error), s1) ->
  fst (Net_ListenTLS n network laddr config w) =
  Returned
    (Some {| config := config; listener := l; stack := Stack n |}, nil_error).
Proof.
  intros H. unfold Net_ListenTLS, Net_ListenTCP. run. rewrite H. reflexivity.
Qed.


(* --------------------------------------------------------------------- *)
(** *** The text of an [ErrDial] *)

Lemma string_append_assoc (a b c : string) :
  ((a ++ b) ++ c = a ++ (b ++ c))%string.
Proof. induction a as [|ch a IH]; cbn; [reflexivity | rewrite IH; reflexivity]. Qed.

Lemma string_append_nil_r (a : string) : (a ++ "" = a)%string.
Proof. induction a as [|ch a IH]; cbn; [reflexivity | rewrite IH; reflexivity]. Qed.

(** The loop over the elements from [index] on appends their texts joined
    by the separator. *)
Lemma ErrDial_Error_range_join len rest :
  forall index b,
    (index = len - Z.of_nat (List.length rest))%Z ->
    ErrDial_Error_range len index rest b =
    (b ++ String.concat "; " (map error_Error rest))%string.
Proof.
  induction rest as [|err rest IH]; intros index b Hindex.
  - cbn. rewrite string_append_nil_r. reflexivity.
  - cbn [ErrDial_Error_range]. rewrite IH by (cbn [List.length] in Hindex; lia).
    destruct rest as [|err' rest].
    + cbn [List.length] in Hindex.
      replace (index <? len - 1)%Z with false
        by (symmetry; apply Z.ltb_ge; lia).
      cbn. rewrite string_append_nil_r. reflexivity.
    + cbn [List.length] in Hindex.
      replace (index <? len - 1)%Z with true
        by (symmetry; apply Z.ltb_lt; lia).
      change (String.concat "; " (map error_Error (err :: err' :: rest)))
        with (error_Error err ++ "; "
              ++ String.concat "; " (map error_Error (err' :: rest)))%string.
      rewrite !string_append_assoc. reflexivity.
Qed.

Lemma error_Error_ErrDial a errs :
  error_Error (ErrDial a errs) =
  ("dial failed: " ++ String.concat "; " (map error_Error errs))%string.
Proof.
  cbn [error_Error]. f_equal.
  induction errs as [|err rest IH]; [reflexivity|].
  destruct rest as [|err' rest].
  - cbn. rewrite string_append_nil_r. reflexivity.
  - rewrite IH. reflexivity.
Qed.

(** On an error on which Error() returns, it returns the text
    [error_Error] gives; on the others it panics. *)
Lemma Error_call_spec :
  forall e,
    Error_call e =
    if Error_returns e then Returned (error_Error e) else Panicked.
Proof.
  fix IH 1. intros [|id text|addr msg err|addr Errors]; try reflexivity.
  rewrite error_Error_ErrDial. cbn [Error_call Error_returns].
  rewrite <- ErrDial_Error_range_join
    with (len := Z.of_nat (List.length Errors)) (index := 0%Z) by lia.
  generalize (Z.of_nat (List.length Errors)) 0%Z "dial failed: ".
  induction Errors as [|err rest IHrest]; intros len index b;
    [reflexivity|].
  cbn [forallb ErrDial_Error_range]. rewrite (IH err).
  destruct (Error_returns err); [|reflexivity].
  cbn [andb]. apply IHrest.
Qed.

(** X1: [ErrDial.Error] panics when the aggregate holds a nil error, at
    any depth; otherwise it returns "dial failed: " followed by the texts
    of its errors separated by "; ", with no separator after the last
    one. *)
Theorem ErrDial_Error_joins_or_panics (a : nat) (Errors : list error) :
  Error_call (ErrDial a Errors) =
  if forallb Error_returns Errors
  then Returned
         ("dial failed: " ++ String.concat "; " (map error_Error Errors))%string
  else Panicked.
Proof.
  rewrite Error_call_spec. cbn [Error_returns].
  destruct (forallb Error_returns Errors); [|reflexivity].
  rewrite error_Error_ErrDial. reflexivity.
Qed.

(* --------------------------------------------------------------------- *)
(** *** More on [DialContext] *)

Lemma Net_DialContext_tries n ctx network address w port addresses w1 :
  tries n ctx address w port addresses w1 ->
  Net_DialContext n ctx network address w =
  dialEach n ctx network port addresses (heap w1) []
    (mkWorld (env w1) (S (heap w1)) (trace w1)).
Proof.
  intros (domain & Hsplit & [(Hip & -> & ->) | (Hip & cname & s1 & Hl & ->)]);
    unfold Net_DialContext; rewrite Hsplit; cbn [is_nil].
  - destruct (net_ParseIP domain); [reflexivity | congruence].
  - rewrite Hip. unfold Net_LookupHost. run. rewrite Hl. reflexivity.
Qed.

Lemma attempts_fail_nonnil n ctx network port addresses s log s1 :
  attempts_fail n ctx network port addresses s log s1 ->
  Forall (fun attempt => snd attempt <> nil_error) log.
Proof. induction 1; constructor; assumption. Qed.

Lemma annotated_messages log errs :
  annotated log errs -> map error_Error errs = map attempt_message log.
Proof.
  induction 1 as [|attempt e log errs [addr ->] _ IH]; [reflexivity|].
  cbn. rewrite IH. reflexivity.
Qed.

Lemma annotated_Is log errs id text :
  Forall (fun attempt => snd attempt <> nil_error) log ->
  annotated log errs ->
  ErrDial_Is errs (errorValue id text) =
  existsb (fun attempt => errors_Is (snd attempt) (errorValue id text)) log.
Proof.
  intros Hnn Han. unfold ErrDial_Is.
  induction Han as [|attempt e log errs [addr ->] _ IH]; [reflexivity|].
  inversion Hnn as [|? ? Hhead Htail]; subst.
  cbn [existsb]. rewrite (IH Htail). f_equal.
  rewrite !errors_Is_nonnil by (assumption || discriminate).
  rewrite is_wrapError by assumption. reflexivity.
Qed.

(** X2: when every attempt of a [DialContext] fails, the text of the error
    it returns is "dial failed: " followed by "<endpoint>: <text of the
    stack's error>" for each attempt, in order, separated by "; ". *)
Theorem Net_DialContext_failure_message
  n ctx network address w port addresses w1 log s2 :
  tries n ctx address w port addresses w1 ->
  attempts_fail n ctx network port addresses (env w1) log s2 ->
  exists errlist errs w',
    Net_DialContext n ctx network address w
      = (Returned (nilConn, ErrDial errlist errs), w')
    /\ ErrDial_Error errs =
       ("dial failed: " ++ String.concat "; " (map attempt_message log))%string.
Proof.
  intros Htries Hfail. rewrite (Net_DialContext_tries network Htries).
  destruct (dialEach_all_fail Hfail (heap w1) [] (S (heap w1)) (trace w1))
    as (errs & h' & Han & Hrun).
  rewrite Hrun. eexists _, _, _. split; [reflexivity|]. cbn [app].
  unfold ErrDial_Error. rewrite ErrDial_Error_range_join by lia.
  rewrite (annotated_messages Han). reflexivity.
Qed.

(** X3: when every attempt of a [DialContext] fails, [errors.Is] matches
    the returned error to a sentinel error exactly when it matches the
    stack's error of some attempt to it. *)
Theorem Net_DialContext_failure_Is
  n ctx network address w port addresses w1 log s2 :
  tries n ctx address w port addresses w1 ->
  attempts_fail n ctx network port addresses (env w1) log s2 ->
  exists errlist errs w',
    Net_DialContext n ctx network address w
      = (Returned (nilConn, ErrDial errlist errs), w')
    /\ forall id text,
         errors_Is (ErrDial errlist errs) (errorValue id text) =
         existsb (fun attempt => errors_Is (snd attempt) (errorValue id text))
           log.
Proof.
  intros Htries Hfail. rewrite (Net_DialContext_tries network Htries).
  destruct (dialEach_all_fail Hfail (heap w1) [] (S (heap w1)) (trace w1))
    as (errs & h' & Han & Hrun).
  rewrite Hrun. eexists _, _, _. split; [reflexivity|]. cbn [app].
  intros id text. rewrite errors_Is_nonnil by discriminate.
  rewrite is_ErrDial. cbn [error_eqb orb].
  apply annotated_Is; [exact (attempts_fail_nonnil Hfail) | exact Han].
Qed.

Lemma dialEach_conn_or_error n ctx network port addresses :
  forall errlist Errors w conn err w',
    dialEach n ctx network port addresses errlist Errors w
      = (Returned (conn, err), w') ->
    conn = nilConn \/ err = nil_error.
Proof.
  induction addresses as [|ip rest IH]; intros errlist Errors w conn err w'.
  - cbn. unfold ret. intros H. inversion H. left. reflexivity.
  - cbn [dialEach]. run.
    destruct (Stack_DialContext (Stack n) ctx network
                (net_JoinHostPort ip port) (env w)) as [[c e] s1].
    cbn. destruct (is_nil e).
    + intros H. inversion H. right. reflexivity.
    + unfold fmt_Errorf_wrap. run. apply IH.
Qed.

(** X4: [DialContext] never returns a connection together with an error:
    of the two results at least one is nil. *)
Theorem Net_DialContext_conn_or_error n ctx network address w conn err w' :
  Net_DialContext n ctx network address w = (Returned (conn, err), w') ->
  conn = nilConn \/ err = nil_error.
Proof.
  unfold Net_DialContext.
  destruct (net_SplitHostPort address) as [[domain port] err0].
  destruct (is_nil err0);
    [|unfold ret; intros H; inversion H; left; reflexivity].
  destruct (net_ParseIP domain) as [ip|].
  - unfold bind, new. apply dialEach_conn_or_error.
  - unfold Net_LookupHost. run.
    destruct (Stack_GetaddrinfoLookupANY (Stack n) ctx domain (env w))
      as [[[addresses cname] lerr] s1].
    cbn. destruct (is_nil lerr).
    + apply dialEach_conn_or_error.
    + intros H. inversion H. left. reflexivity.
Qed.

Lemma dialEach_calls n ctx network port addresses :
  forall errlist Errors w,
  exists evs,
    trace (snd (dialEach n ctx network port addresses errlist Errors w))
      = trace w ++ evs
    /\ Forall resolver_or_dial evs.
Proof.
  induction addresses as [|ip rest IH]; intros errlist Errors w.
  - exists []. cbn. rewrite app_nil_r. split; [reflexivity | constructor].
  - cbn [dialEach]. run.
    destruct (Stack_DialContext (Stack n) ctx network
                (net_JoinHostPort ip port) (env w)) as [[c e] s1].
    cbn. destruct (is_nil e).
    + eexists [_]. cbn. split; [reflexivity|].
      constructor; [exact I | constructor].
    + unfold fmt_Errorf_wrap. run.
      match goal with
      | |- context [dialEach n ctx network port rest errlist ?E ?W] =>
          destruct (IH errlist E W) as (evs & Htr & Hall)
      end.
      eexists (_ :: evs). rewrite Htr. cbn [trace].
      rewrite <- app_assoc. split; [reflexivity|].
      constructor; [exact I | exact Hall].
Qed.

(** The only calls [DialContext] makes are resolver and dial calls of the
    stack. *)
Lemma Net_DialContext_calls n ctx network address w :
  exists evs,
    trace (snd (Net_DialContext n ctx network address w)) = trace w ++ evs
    /\ Forall resolver_or_dial evs.
Proof.
  unfold Net_DialContext.
  destruct (net_SplitHostPort address) as [[domain port] err0].
  destruct (is_nil err0);
    [|exists []; cbn; rewrite app_nil_r; split; [reflexivity | constructor]].
  destruct (net_ParseIP domain) as [ip|].
  - unfold bind, new.
    apply (dialEach_calls n ctx network port [domain] (heap w) []
             (mkWorld (env w) (S (heap w)) (trace w))).
  - unfold Net_LookupHost. run.
    destruct (Stack_GetaddrinfoLookupANY (Stack n) ctx domain (env w))
      as [[[addresses cname] lerr] s1].
    cbn. destruct (is_nil lerr).
    + cbn [env heap trace].
      destruct (dialEach_calls n ctx network port addresses (heap w) []
                  (mkWorld s1 (S (heap w))
                     (trace w ++ [CallGetaddrinfoLookupANY ctx domain])))
        as (evs & Htr & Hall).
      eexists (_ :: evs). rewrite Htr. cbn [trace].
      rewrite <- app_assoc. split; [reflexivity|].
      constructor; [exact I | exact Hall].
    + eexists [_]. cbn. split; [reflexivity|].
      constructor; [exact I | constructor].
Qed.

(** X5: [DialContext] leaves every connection as it is: among its calls
    there is no Close, no SetDeadline and no handshake; a connection that
    comes with a failed attempt is not closed either. *)
Theorem Net_DialContext_touches_no_connection n ctx network address w :
  exists evs,
    trace (snd (Net_DialContext n ctx network address w)) = trace w ++ evs
    /\ (forall id, ~ In (CallClose id) evs)
    /\ (forall id t, ~ In (CallSetDeadline id t) evs)
    /\ (forall tc ctx',
          ~ In (GoHandshakeContext tc ctx') evs
          /\ ~ In (CallHandshakeContext tc ctx') evs).
Proof.
  destruct (Net_DialContext_calls n ctx network address w)
    as (evs & Htr & Hall).
  rewrite Forall_forall in Hall.
  exists evs. split; [exact Htr|].
  repeat split; intros; intros Hin; exact (Hall _ Hin).
Qed.

Lemma Net_LookupHost_trace n ctx domain w :
  trace (snd (Net_LookupHost n ctx domain w))
  = trace w ++ [CallGetaddrinfoLookupANY ctx domain].
Proof.
  unfold Net_LookupHost. run.
  destruct (Stack_GetaddrinfoLookupANY (Stack n) ctx domain (env w))
    as [[[addrs cname] err] s1].
  reflexivity.
Qed.

(** X6: [LookupHost] and [LookupCNAME] are the two halves of one resolver
    call: from the same world each makes the one call
    [GetaddrinfoLookupANY], they return the addresses and the canonical
    name of its answer, and they return the same error. *)
Theorem Net_Lookup_same_call n ctx domain w :
  exists addrs cname err w',
    Stack_GetaddrinfoLookupANY (Stack n) ctx domain (env w)
      = ((addrs, cname, err), env w')
    /\ Net_LookupHost n ctx domain w = (Returned (addrs, err), w')
    /\ Net_LookupCNAME n ctx domain w = (Returned (cname, err), w')
    /\ trace w' = trace w ++ [CallGetaddrinfoLookupANY ctx domain].
Proof.
  unfold Net_LookupHost, Net_LookupCNAME. run.
  destruct (Stack_GetaddrinfoLookupANY (Stack n) ctx domain (env w))
    as [[[addrs cname] err] s1].
  eexists addrs, cname, err, _. cbn. repeat split; reflexivity.
Qed.

(** X7: when the resolver fails, [DialContext] on a host name returns the
    error [LookupHost] returns, as it is, with a nil connection, and dials
    nothing, whatever addresses came with the error. *)
Theorem Net_DialContext_resolver_failure
  n ctx network address domain port w addrs err w1 :
  net_SplitHostPort address = (domain, port, nil_error) ->
  net_ParseIP domain = None ->
  Net_LookupHost n ctx domain w = (Returned (addrs, err), w1) ->
  err <> nil_error ->
  Net_DialContext n ctx network address w = (Returned (nilConn, err), w1)
  /\ trace w1 = trace w ++ [CallGetaddrinfoLookupANY ctx domain].
Proof.
  intros Hsplit Hip Hlookup Herr.
  pose proof (Net_LookupHost_trace n ctx domain w) as Htr.
  rewrite Hlookup in Htr. split; [|exact Htr].
  unfold Net_DialContext. rewrite Hsplit, Hip. cbn [is_nil].
  erewrite bind_returned by exact Hlookup.
  destruct (is_nil err) eqn:Hnil; [apply is_nil_true in Hnil; congruence|].
  rewrite Hnil. reflexivity.
Qed.

(* --------------------------------------------------------------------- *)
(** *** More on [DialTLSContext] *)

Lemma Conn_Close_panics c w :
  Conn_id c = None -> Conn_Close c w = (Panicked, w).
Proof.
  induction c as [|id'|c IH cfg role]; cbn; intros H;
    [reflexivity | discriminate | exact (IH H)].
Qed.

(** X8: [DialTLSContext] passes a failure to get a connection on as it is:
    for an address that does not split, it and [DialContext] return the
    split error and call nothing; when the inner dial fails it returns a
    nil connection with the error of [DialContext], and makes no call
    beyond those of [DialContext]: no certificate pool, no handshake, no
    close. *)
Theorem Net_DialTLSContext_dial_failure n ctx network address w :
  (forall hostname port err,
      net_SplitHostPort address = (hostname, port, err) ->
      err <> nil_error ->
      Net_DialContext n ctx network address w = (Returned (nilConn, err), w)
      /\ Net_DialTLSContext n ctx network address w
         = (Returned (nilConn, err), w))
  /\
  (forall hostname port conn err w1,
      net_SplitHostPort address = (hostname, port, nil_error) ->
      Net_DialContext n ctx network address w = (Returned (conn, err), w1) ->
      err <> nil_error ->
      Net_DialTLSContext n ctx network address w
        = (Returned (nilConn, err), w1)).
Proof.
  split.
  - intros hostname port err Hsplit Herr.
    unfold Net_DialContext, Net_DialTLSContext. rewrite Hsplit.
    destruct (is_nil err) eqn:Hnil; [apply is_nil_true in Hnil; congruence|].
    split; reflexivity.
  - intros hostname port conn err w1 Hsplit Hdial Herr.
    unfold Net_DialTLSContext. rewrite Hsplit. cbn [is_nil].
    erewrite bind_returned by exact Hdial.
    destruct (is_nil err) eqn:Hnil; [apply is_nil_true in Hnil; congruence|].
    rewrite Hnil. reflexivity.
Qed.

Lemma Net_tlsHandshake_returned_events n ctx tc w err w' :
  Net_tlsHandshake n ctx tc w = (Returned err, w') ->
  exists id c,
    err = selected_error c
    /\ trace w' = trace w ++ handshake_events id ctx tc c.
Proof.
  destruct (ctx_Deadline ctx) as [d|] eqn:Hd.
  - intros H.
    destruct (@Net_tlsHandshake_returned n ctx tc w d err w' Hd H)
      as (id & c & _ & Herr & Htr).
    exists id, c. unfold handshake_events. rewrite Hd. auto.
  - unfold Net_tlsHandshake, handshake_events. rewrite Hd. run.
    destruct (select_case tc ctx (env w)) as [[c| |] s]; cbn;
      try discriminate.
    intros H. exists 0, c.
    destruct c; cbn in H; inversion H; subst; cbn;
      rewrite <- !app_assoc; auto.
Qed.

(** The calls of a [DialTLSContext] that returns: those of [DialContext],
    and, when the dial gave a connection, the certificate pool, the calls
    of one [tlsHandshake], and a Close exactly when an error is returned. *)
Lemma Net_DialTLSContext_calls n ctx network address w conn err w' :
  Net_DialTLSContext n ctx network address w = (Returned (conn, err), w') ->
  exists evs1 evs2,
    trace w' = trace w ++ evs1 ++ evs2
    /\ Forall resolver_or_dial evs1
    /\ (evs2 = []
        \/ (exists id c tc,
               evs2 = CallDefaultCertPool :: handshake_events id ctx tc c
               /\ err = nil_error)
        \/ (exists id c tc id',
               evs2 = CallDefaultCertPool :: handshake_events id ctx tc c
                      ++ [CallClose id']
               /\ err <> nil_error)).
Proof.
  destruct (Net_DialContext_calls n ctx network address w)
    as (evs1 & Htr1 & Hall).
  unfold Net_DialTLSContext.
  destruct (net_SplitHostPort address) as [[hostname port] err0].
  destruct (is_nil err0) eqn:Hnil0.
  2:{ unfold ret. intros H. inversion H; subst.
      exists [], []. rewrite !app_nil_r. repeat split; [constructor | auto]. }
  unfold bind at 1.
  destruct (Net_DialContext n ctx network address w) as [[[c0 e0]| |] w1];
    try discriminate.
  cbn [snd] in Htr1.
  destruct (is_nil e0) eqn:Hnil1.
  2:{ unfold ret. intros H. inversion H; subst.
      exists evs1, []. rewrite app_nil_r. repeat split; auto. }
  unfold bind at 1, emit. unfold bind at 1, call. cbn [env heap trace].
  destruct (Stack_DefaultCertPool (Stack n) (env w1)) as [pool s2].
  set (tc := tlsConn c0 _ true).
  unfold bind at 1.
  destruct (Net_tlsHandshake n ctx tc _) as [[herr| |] w3] eqn:Hhs;
    try discriminate.
  pose proof Hhs as Hev. apply Net_tlsHandshake_returned_events in Hev.
  destruct Hev as (id & c & Herr & Htr3).
  cbn [trace] in Htr3.
  destruct (is_nil herr) eqn:Hnil.
  - unfold ret. intros H. inversion H; subst.
    exists evs1, (CallDefaultCertPool :: handshake_events id ctx tc c).
    split; [|split; [exact Hall|]].
    + rewrite Htr3, Htr1. rewrite <- !app_assoc. reflexivity.
    + right. left. exists id, c, tc. auto.
  - destruct (Conn_id c0) as [id'|] eqn:Hid.
    + unfold bind. rewrite Conn_Close_run with (id := id') by exact Hid.
      unfold ret. intros H. inversion H; subst.
      exists evs1,
        (CallDefaultCertPool :: handshake_events id ctx tc c ++ [CallClose id']).
      split; [|split; [exact Hall|]].
      * cbn [trace]. rewrite Htr3, Htr1. rewrite <- !app_assoc. reflexivity.
      * right. right. exists id, c, tc, id'.
        split; [reflexivity | apply is_nil_false; exact Hnil].
    + unfold bind. rewrite Conn_Close_panics by exact Hid. discriminate.
Qed.

Lemma deadline_after_app id tr evs :
  deadline_after id (tr ++ evs) =
  match deadline_after id evs with
  | Some t => Some t
  | None => deadline_after id tr
  end.
Proof.
  induction tr as [|ev tr IH]; cbn.
  - destruct (deadline_after id evs); reflexivity.
  - rewrite IH. destruct (deadline_after id evs); reflexivity.
Qed.

Lemma deadline_after_resolver_or_dial id evs :
  Forall resolver_or_dial evs -> deadline_after id evs = None.
Proof.
  induction 1 as [|ev evs Hev _ IH]; [reflexivity|].
  cbn. rewrite IH. destruct ev; try reflexivity; contradiction.
Qed.

Lemma deadline_after_handshake_events id id' ctx tc c :
  deadline_after id (handshake_events id' ctx tc c) = None
  \/ deadline_after id (handshake_events id' ctx tc c) = Some None.
Proof.
  unfold handshake_events. destruct (ctx_Deadline ctx) as [d|]; cbn.
  - destruct (Nat.eqb id id'); auto.
  - auto.
Qed.

(** X9: [DialTLSContext] leaves no deadline behind: when it returns,
    with or without an error, the deadline in force on every connection
    is the one from before the call or the zero time; and under a context
    without deadline it is the one from before the call. *)
Theorem Net_DialTLSContext_deadlines n ctx network address w conn err w' :
  Net_DialTLSContext n ctx network address w = (Returned (conn, err), w') ->
  (forall id,
      deadline_after id (trace w') = deadline_after id (trace w)
      \/ deadline_after id (trace w') = Some None)
  /\ (ctx_Deadline ctx = None ->
      forall id, deadline_after id (trace w') = deadline_after id (trace w)).
Proof.
  intros Hrun.
  pose proof Hrun as Hcalls. apply Net_DialTLSContext_calls in Hcalls.
  destruct Hcalls as (evs1 & evs2 & Htr & Hall & Hshape).
  assert (Hfree1 := fun id => deadline_after_resolver_or_dial id Hall).
  assert (Hstep : forall id id' c tc closing,
             (closing = [] \/ exists i, closing = [CallClose i]) ->
             deadline_after id
               (CallDefaultCertPool :: handshake_events id' ctx tc c ++ closing)
             = deadline_after id (handshake_events id' ctx tc c)).
  { intros id id' c tc closing Hc.
    change (CallDefaultCertPool :: handshake_events id' ctx tc c ++ closing)
      with ([CallDefaultCertPool] ++ handshake_events id' ctx tc c ++ closing).
    rewrite !deadline_after_app.
    destruct Hc as [-> | [i ->]]; cbn;
      destruct (deadline_after id (handshake_events id' ctx tc c));
      reflexivity. }
  split.
  - intros id. rewrite Htr, app_assoc, deadline_after_app.
    destruct Hshape as [-> | [(id' & c & tc & -> & _) | (id' & c & tc & i & -> & _)]].
    + cbn. rewrite deadline_after_app, Hfree1. left. reflexivity.
    + replace (CallDefaultCertPool :: handshake_events id' ctx tc c)
        with (CallDefaultCertPool :: handshake_events id' ctx tc c ++ [])
        by (rewrite app_nil_r; reflexivity).
      rewrite Hstep by (left; reflexivity).
      destruct (deadline_after_handshake_events id id' ctx tc c) as [-> | ->];
        [|right; reflexivity].
      rewrite deadline_after_app, Hfree1. left. reflexivity.
    + rewrite Hstep by (right; eexists; reflexivity).
      destruct (deadline_after_handshake_events id id' ctx tc c) as [-> | ->];
        [|right; reflexivity].
      rewrite deadline_after_app, Hfree1. left. reflexivity.
  - intros Hd id. rewrite Htr, app_assoc, deadline_after_app.
    assert (Hnone : forall id' c tc,
               deadline_after id (handshake_events id' ctx tc c) = None).
    { intros. unfold handshake_events. rewrite Hd. reflexivity. }
    destruct Hshape as [-> | [(id' & c & tc & -> & _) | (id' & c & tc & i & -> & _)]].
    + cbn. rewrite deadline_after_app, Hfree1. reflexivity.
    + replace (CallDefaultCertPool :: handshake_events id' ctx tc c)
        with (CallDefaultCertPool :: handshake_events id' ctx tc c ++ [])
        by (rewrite app_nil_r; reflexivity).
      rewrite Hstep by (left; reflexivity). rewrite Hnone.
      rewrite deadline_after_app, Hfree1. reflexivity.
    + rewrite Hstep by (right; eexists; reflexivity). rewrite Hnone.
      rewrite deadline_after_app, Hfree1. reflexivity.
Qed.

(* --------------------------------------------------------------------- *)
(** *** More on the TLS listener *)

Lemma netListenerTLS_Accept_xor_aux lw w conn w' :
  netListenerTLS_Accept lw w = (Returned (conn, nil_error), w') ->
  exists c0, conn = tlsConn c0 (config lw) false.
Proof.
  unfold netListenerTLS_Accept, Listener_Accept.
  destruct (listener lw) as [|lid]; [unfold bind, panic; discriminate|].
  unfold bind, emit, call, call_outcome, ret. cbn [env heap trace].
  destruct (listener_Accept lid (env w)) as [[c0 e0] s1].
  destruct (is_nil e0) eqn:Hnil0.
  - cbn [env heap trace].
    destruct (tls_HandshakeContext _ _ s1) as [[herr| |] s2];
      try discriminate.
    destruct (is_nil herr) eqn:Hnil.
    + intros H. inversion H; subst. eauto.
    + destruct (Conn_Close c0 _) as [[e| |] w4]; try discriminate.
      intros H. inversion H; subst. discriminate.
  - intros H. inversion H; subst. discriminate.
Qed.

(** X11: [Accept] returns either a connection or an error, never both and
    never neither: with a nil error the connection is the [tls.Server]
    over an accepted connection with the listener's configuration, and
    with an error the connection is nil. *)
Theorem netListenerTLS_Accept_conn_xor_error lw w conn err w' :
  netListenerTLS_Accept lw w = (Returned (conn, err), w') ->
  (err = nil_error /\ exists c0, conn = tlsConn c0 (config lw) false)
  \/ (err <> nil_error /\ conn = nilConn).
Proof.
  unfold netListenerTLS_Accept, Listener_Accept.
  destruct (listener lw) as [|lid]; [unfold bind, panic; discriminate|].
  unfold bind, emit, call, call_outcome, ret. cbn [env heap trace].
  destruct (listener_Accept lid (env w)) as [[c0 e0] s1].
  destruct (is_nil e0) eqn:Hnil0.
  - cbn [env heap trace].
    destruct (tls_HandshakeContext _ _ s1) as [[herr| |] s2];
      try discriminate.
    destruct (is_nil herr) eqn:Hnil.
    + intros H. inversion H; subst. left. split; [reflexivity | eauto].
    + destruct (Conn_Close c0 _) as [[e| |] w4]; try discriminate.
      intros H. inversion H; subst. right.
      split; [apply is_nil_false; exact Hnil | reflexivity].
  - intros H. inversion H; subst. right.
    split; [apply is_nil_false; exact Hnil0 | reflexivity].
Qed.

(** X12: when the accept of the stack's listener fails, [Accept] returns
    that error with a nil connection after this one call: it starts no
    handshake and closes nothing. *)
Theorem netListenerTLS_Accept_failure lw lid w conn err s1 :
  listener lw = stackListener lid ->
  listener_Accept lid (env w) = ((conn, err), s1) ->
  err <> nil_error ->
  netListenerTLS_Accept lw w =
  (Returned (nilConn, err), mkWorld s1 (heap w) (trace w ++ [CallAccept lid])).
Proof.
  intros Hl Hacc Herr.
  unfold netListenerTLS_Accept, Listener_Accept. rewrite Hl.
  unfold bind, emit, call, ret. cbn [env heap trace]. rewrite Hacc.
  destruct (is_nil err) eqn:Hnil; [apply is_nil_true in Hnil; congruence|].
  reflexivity.
Qed.

(** X13: [ListenTLS] makes the one call [ListenTCP] of the stack.  When
    that fails it returns no listener and the stack's error.  Otherwise
    the listener it returns acts on the stack's listener: Addr reports its
    address, Close closes it and returns its error without any other
    call, and every connection Accept returns is a [tls.Server] with the
    configuration given to [ListenTLS], accepted from it. *)
Theorem Net_ListenTLS_wraps_listener n network laddr cfg w :
  match Stack_ListenTCP (Stack n) network laddr (env w) with
  | ((l, err), s1) =>
      let w1 := mkWorld s1 (heap w) (trace w ++ [CallListenTCP network laddr]) in
      if is_nil err then
        exists lw,
          Net_ListenTLS n network laddr cfg w = (Returned (Some lw, nil_error), w1)
          /\ forall lid,
               l = stackListener lid ->
               (forall w2,
                   netListenerTLS_Addr lw w2
                   = (Returned (listener_Addr lid (env w2)), w2))
               /\ (forall w2,
                      netListenerTLS_Close lw w2
                      = (Returned (fst (listener_Close lid (env w2))),
                         mkWorld (snd (listener_Close lid (env w2)))
                           (heap w2) (trace w2)))
               /\ (forall w2 conn w3,
                      netListenerTLS_Accept lw w2
                        = (Returned (conn, nil_error), w3) ->
                      (exists c0, conn = tlsConn c0 cfg false)
                      /\ exists evs, trace w3 = trace w2 ++ CallAccept lid :: evs)
      else
        Net_ListenTLS n network laddr cfg w = (Returned (None, err), w1)
  end.
Proof.
  unfold Net_ListenTLS, Net_ListenTCP. run.
  destruct (Stack_ListenTCP (Stack n) network laddr (env w)) as [[l err] s1].
  cbn. destruct (is_nil err); [|reflexivity].
  eexists. split; [reflexivity|]. intros lid ->.
  split; [|split].
  - intros w2. unfold netListenerTLS_Addr. destruct w2. reflexivity.
  - intros w2. unfold netListenerTLS_Close. cbn [listener]. unfold call.
    destruct (listener_Close lid (env w2)). reflexivity.
  - intros w2 conn w3 Hacc. split.
    + pose proof Hacc as Hx. apply netListenerTLS_Accept_xor_aux in Hx.
      exact Hx.
    + revert Hacc. unfold netListenerTLS_Accept, Listener_Accept.
      cbn [listener config].
      unfold bind, emit, call, call_outcome, ret. cbn [env heap trace].
      destruct (listener_Accept lid (env w2)) as [[c0 e0] s2].
      destruct (is_nil e0) eqn:Hnil0.
      * cbn [env heap trace].
        destruct (tls_HandshakeContext _ _ s2) as [[herr| |] s3];
          try discriminate.
        destruct (is_nil herr) eqn:Hnil.
        -- intros H. inversion H; subst. cbn [trace].
           eexists. rewrite <- app_assoc. reflexivity.
        -- apply is_nil_false in Hnil.
           destruct (Conn_Close c0 _) as [[e| |] w4]; try discriminate.
           intros H. inversion H; subst. congruence.
      * apply is_nil_false in Hnil0. intros H. inversion H; subst. congruence.
Qed.

End Facade.

(* --------------------------------------------------------------------- *)
(** *** [DPIThrottleTrafficForTLSSNI.Filter] *)

Lemma Filter_declines_or_throttles r direction packet logger :
  fst (DPIThrottleTrafficForTLSSNI_Filter r direction packet logger)
    = (None, false)
  \/ (offending r direction packet
      /\ fst (DPIThrottleTrafficForTLSSNI_Filter r direction packet logger)
         = (Some {| Delay := 0%Z; Flags := DPIFlagsNone; PLR := rule_PLR r |},
            true)).
Proof.
  unfold DPIThrottleTrafficForTLSSNI_Filter, offending.
  destruct direction; [|left; reflexivity].
  destruct (Z.eqb_spec (TransportProtocol packet) IPProtocolTCP) as [Htcp|_];
    [|left; reflexivity].
  cbn [negb]. destruct (parseTLSServerName packet) as [sni err].
  destruct (is_nil err) eqn:Hnil; [|left; reflexivity].
  cbn [negb]. destruct (String.eqb_spec sni (rule_SNI r)) as [Hsni|_];
    [|left; reflexivity].
  right. apply is_nil_true in Hnil. cbn. auto.
Qed.

Lemma offending_throttled r direction packet logger :
  offending r direction packet ->
  fst (DPIThrottleTrafficForTLSSNI_Filter r direction packet logger)
  = (Some {| Delay := 0%Z; Flags := DPIFlagsNone; PLR := rule_PLR r |}, true).
Proof.
  intros (-> & Htcp & Herr & Hsni).
  unfold DPIThrottleTrafficForTLSSNI_Filter. rewrite Htcp.
  destruct (parseTLSServerName packet) as [sni err]. cbn in Herr, Hsni.
  subst. rewrite String.eqb_refl. reflexivity.
Qed.

(** C3: [Filter] returns a policy exactly for client-to-server TCP packets
    whose TLS server name parses and equals the configured SNI; the policy
    then carries the configured PLR, no delay and no flag; in every other
    case the rule declines. *)
Theorem DPIThrottleTrafficForTLSSNI_Filter_matches
  (r : DPIThrottleTrafficForTLSSNI) (direction : DPIDirection)
  (packet : DissectedPacket) (logger : Logger) :
  let res := fst (DPIThrottleTrafficForTLSSNI_Filter r direction packet logger) in
  (offending r direction packet <-> exists policy, res = (Some policy, true))
  /\ (offending r direction packet ->
      res = (Some {| Delay := 0%Z; Flags := DPIFlagsNone; PLR := rule_PLR r |},
             true))
  /\ (~ offending r direction packet -> res = (None, false)).
Proof.
  intros res. subst res.
  pose proof (Filter_declines_or_throttles r direction packet logger)
    as [Hno | [Hoff Hyes]].
  - split; [|split].
    + split.
      * intros Hoff. rewrite (offending_throttled logger Hoff) in Hno.
        discriminate.
      * intros [policy H]. rewrite H in Hno. discriminate.
    + intros Hoff. apply offending_throttled. exact Hoff.
    + intros _. exact Hno.
  - split; [|split].
    + split; [intros _; eexists; exact Hyes | intros _; exact Hoff].
    + intros _. exact Hyes.
    + intros Hnot. contradiction.
Qed.

(** C9: [Filter] is deterministic: for a fixed rule, direction and packet
    its match decision and policy do not depend on what the logger has
    already been handed, so a second call, made after the first has
    logged, returns the same decision and the same policy. *)
Theorem DPIThrottleTrafficForTLSSNI_Filter_deterministic
  (r : DPIThrottleTrafficForTLSSNI) (direction : DPIDirection)
  (packet : DissectedPacket) (logger logger' : Logger) :
  fst (DPIThrottleTrafficForTLSSNI_Filter r direction packet logger)
  = fst (DPIThrottleTrafficForTLSSNI_Filter r direction packet logger')
  /\ fst (DPIThrottleTrafficForTLSSNI_Filter r direction packet
            (snd (DPIThrottleTrafficForTLSSNI_Filter r direction packet logger)))
     = fst (DPIThrottleTrafficForTLSSNI_Filter r direction packet logger).
Proof.
  assert (H : forall l1 l2,
             fst (DPIThrottleTrafficForTLSSNI_Filter r direction packet l1)
             = fst (DPIThrottleTrafficForTLSSNI_Filter r direction packet l2)).
  { intros l1 l2.
    destruct (Filter_declines_or_throttles r direction packet l1)
      as [H1 | [Hoff H1]];
      destruct (Filter_declines_or_throttles r direction packet l2)
      as [H2 | [Hoff' H2]].
    - rewrite H1, H2. reflexivity.
    - rewrite (offending_throttled l1 Hoff') in H1. discriminate.
    - rewrite (offending_throttled l2 Hoff) in H2. discriminate.
    - rewrite H1, H2. reflexivity. }
  split; apply H.
Qed.

(** X14: [Filter] logs exactly when it matches: a declined packet leaves
    the logger as it was, and a matched one adds a single line, which
    names the flow's addresses and ports, the protocol TCP and the
    configured SNI. *)
Theorem DPIThrottleTrafficForTLSSNI_Filter_logs_on_match
  (r : DPIThrottleTrafficForTLSSNI) (direction : DPIDirection)
  (packet : DissectedPacket) (logger : Logger) :
  snd (DPIThrottleTrafficForTLSSNI_Filter r direction packet logger) =
  if snd (fst (DPIThrottleTrafficForTLSSNI_Filter r direction packet logger))
  then
    logger ++
    [{| format := "netem: dpi: throttling flow %s:%d %s:%d/%s because SNI==%s";
        args := [ArgString (SourceIPAddress packet);
                 ArgInt (SourcePort packet);
                 ArgString (DestinationIPAddress packet);
                 ArgInt (DestinationPort packet);
                 ArgIPProtocol IPProtocolTCP;
                 ArgString (rule_SNI r)] |}]
  else logger.
Proof.
  unfold DPIThrottleTrafficForTLSSNI_Filter.
  destruct direction; [|reflexivity].
  destruct (Z.eqb_spec (TransportProtocol packet) IPProtocolTCP) as [Htcp|_];
    [|reflexivity].
  cbn [negb]. destruct (parseTLSServerName packet) as [sni err].
  destruct (is_nil err); [|reflexivity].
  cbn [negb]. destruct (String.eqb_spec sni (rule_SNI r)) as [Hsni|_];
    [|reflexivity].
  cbn. unfold Logger_Infof. rewrite Htcp, Hsni. reflexivity.
Qed.

(** X15: the verdict of [Filter] depends on the packet only through its
    transport protocol and its TLS server name: two packets that agree on
    these get the same decision and policy, whatever their addresses and
    ports. *)
Theorem DPIThrottleTrafficForTLSSNI_Filter_ignores_endpoints
  (r : DPIThrottleTrafficForTLSSNI) (direction : DPIDirection)
  (packet packet' : DissectedPacket) (logger logger' : Logger) :
  TransportProtocol packet = TransportProtocol packet' ->
  parseTLSServerName packet = parseTLSServerName packet' ->
  fst (DPIThrottleTrafficForTLSSNI_Filter r direction packet logger)
  = fst (DPIThrottleTrafficForTLSSNI_Filter r direction packet' logger').
Proof.
  intros Hproto Hsni.
  unfold DPIThrottleTrafficForTLSSNI_Filter. rewrite Hproto, Hsni.
  destruct direction; [|reflexivity].
  destruct (negb (TransportProtocol packet' =? IPProtocolTCP)%Z);
    [reflexivity|].
  destruct (parseTLSServerName packet') as [sni err].
  destruct (negb (is_nil err)); [reflexivity|].
  destruct (negb (String.eqb sni (rule_SNI r))); reflexivity.
Qed.


(** The text of an empty aggregate, and the panic on a nil element. *)
Example Error_call_empty_ErrDial :
  Error_call (ErrDial 0 []) = Returned "dial failed: ".
Proof. reflexivity. Qed.

Example Error_call_nil_child :
  Error_call (ErrDial 0 [ECONNREFUSED; nil_error]) = Panicked.
Proof. reflexivity. Qed.

(** The rule of the throttling tests, on a ClientHello for the offending
    name, on one for another name, and on the return path. *)
Example Filter_throttles_offending_sni :
  fst (DPIThrottleTrafficForTLSSNI_Filter
         example_rule
         DPIDirectionClientToServer
         {| TransportProtocol := IPProtocolTCP;
            parseTLSServerName := ("ndt0.local", nil_error);
            SourceIPAddress := "10.0.0.2"; SourcePort := 50000%Z;
            DestinationIPAddress := "10.0.0.1"; DestinationPort := 443%Z |}
         [])
  = (Some {| Delay := 0%Z; Flags := DPIFlagsNone;
             PLR := rule_PLR example_rule |}, true).
Proof. reflexivity. Qed.

Example Filter_accepts_other_sni :
  DPIThrottleTrafficForTLSSNI_Filter
    example_rule
    DPIDirectionClientToServer
    {| TransportProtocol := IPProtocolTCP;
       parseTLSServerName := ("ndt0.xyz", nil_error);
       SourceIPAddress := "10.0.0.2"; SourcePort := 50000%Z;
       DestinationIPAddress := "10.0.0.1"; DestinationPort := 443%Z |}
    []
  = ((None, false), []).
Proof. reflexivity. Qed.

Example Filter_accepts_return_path :
  DPIThrottleTrafficForTLSSNI_Filter
    example_rule
    DPIDirectionServerToClient
    {| TransportProtocol := IPProtocolTCP;
       parseTLSServerName := ("ndt0.local", nil_error);
       SourceIPAddress := "10.0.0.1"; SourcePort := 443%Z;
       DestinationIPAddress := "10.0.0.2"; DestinationPort := 50000%Z |}
    []
  = ((None, false), []).
Proof. reflexivity. Qed.

(* --------------------------------------------------------------------- *)
(** *** The end of the throttle command *)

(** X16: at the end of the throttle command the warning for a failed
    server prints the client's error: every warning carries the text of
    the client's error, never the server's; and when the server failed
    while the client did not, the command panics on the nil client error
    before it has logged anything or reached the explicit close of the
    topology. *)
Theorem throttle_main_report_prints_client_error
  (Must0 : error -> Outcome unit) (errClient errServer : error) :
  (forall line,
      In (Warnf line) (snd (throttle_main_report Must0 errClient errServer)) ->
      errClient <> nil_error
      /\ args line = [ArgString (error_Error errClient)])
  /\ (errClient = nil_error ->
      errServer <> nil_error ->
      throttle_main_report Must0 errClient errServer = (Panicked, [])).
Proof.
  split.
  - intros line. unfold throttle_main_report, and_then, warn_Error, call_Error.
    destruct errClient; cbn;
      destruct (is_nil errServer); cbn;
      repeat match goal with
        | |- context [Must0 ?e] => destruct (Must0 e); cbn
        end;
      intros Hin;
      repeat match goal with
        | H : _ \/ _ |- _ => destruct H
        | H : False |- _ => contradiction
        | H : Warnf _ = Warnf _ |- _ => injection H as <-
        | H : _ = Warnf _ |- _ => discriminate H
        end;
      (split; [discriminate | reflexivity]).
  - intros -> Hserver.
    unfold throttle_main_report, and_then.
    destruct (is_nil errServer) eqn:Hnil;
      [apply is_nil_true in Hnil; congruence|].
    reflexivity.
Qed.


(* ===================================================================== *)
(** ** The statements on the small network *)
(* ===================================================================== *)


(** A dial to the server by name succeeds at the first address. *)
Example Net_DialContext_by_name :
  Net_DialContext example_SplitHostPort example_ParseIP example_JoinHostPort
    example_net context_Background "tcp" "ndt0.local:443" example_world
  = (Returned (stackConn 0, nil_error),
     mkWorld 1 1
       [CallGetaddrinfoLookupANY context_Background "ndt0.local";
        CallDialContext context_Background "tcp" "10.0.0.1:443"]).
Proof. reflexivity. Qed.

(** A dial to a closed port fails with an aggregate that matches the
    stack's error. *)
Example Net_DialContext_refused :
  exists e w',
    Net_DialContext example_SplitHostPort example_ParseIP example_JoinHostPort
      example_net context_Background "tcp" "10.0.0.1:80" example_world
    = (Returned (nilConn, e), w')
    /\ e = ErrDial 0 [wrapError 1 "10.0.0.1:80: connection refused" ECONNREFUSED]
    /\ errors_Is e ECONNREFUSED = true
    /\ error_Error e = "dial failed: 10.0.0.1:80: connection refused".
Proof. eexists _, _. repeat split. Qed.






Lemma Net_DialTLSContext_handshake_witness :
  let tc :=
    tlsConn (stackConn 0)
      {| RootCAs := 1; NextProtos := []; ServerName := "ndt0.local" |} true in
  exists res w' closing,
    Net_DialTLSContext example_SplitHostPort example_ParseIP
      example_JoinHostPort example_SetDeadline example_Close example_select
      example_net example_deadline "tcp" "ndt0.local:443" example_world
    = (Returned res, w')
    /\ snd res = nil_error
    /\ (nil_error = nil_error -> fst res = tc)
    /\ trace w' =
       [CallGetaddrinfoLookupANY example_deadline "ndt0.local";
        CallDialContext example_deadline "tcp" "10.0.0.1:443"] ++
       CallDefaultCertPool ::
       [CallSetDeadline 0 (Some 5000%Z); GoHandshakeContext tc example_deadline;
        Select (caseErrch nil_error); CallSetDeadline 0 None] ++ closing
    /\ (closing = [] \/ closing = [CallClose 0]).
Proof.
  apply (@Net_DialTLSContext_handshake nat
           example_SplitHostPort example_ParseIP example_JoinHostPort
           example_SetDeadline example_Close example_select
           example_net example_deadline "tcp" "ndt0.local:443" example_world
           "ndt0.local" "443" (stackConn 0) 0
           (mkWorld 1 1
              [CallGetaddrinfoLookupANY example_deadline "ndt0.local";
               CallDialContext example_deadline "tcp" "10.0.0.1:443"])
           (caseErrch nil_error) 1);
    reflexivity.
Defined.



(* --------------------------------------------------------------------- *)
(** *** The further properties on the small network *)

Lemma cancelling_net_tries :
  tries example_SplitHostPort example_ParseIP cancelling_net
    context_Background "ndt0.local:443" example_world "443"
    ["10.0.0.1"; "10.0.0.3"]
    (mkWorld 0 0 [CallGetaddrinfoLookupANY context_Background "ndt0.local"]).
Proof.
  exists "ndt0.local". split; [reflexivity|]. right.
  split; [reflexivity|]. exists "", 0. split; reflexivity.
Qed.

Lemma cancelling_net_attempts_fail :
  attempts_fail example_JoinHostPort cancelling_net context_Background
    "tcp" "443" ["10.0.0.1"; "10.0.0.3"] 0
    [("10.0.0.1:443", context_Canceled); ("10.0.0.3:443", context_Canceled)]
    2.
Proof.
  apply attempts_fail_cons with (conn := nilConn) (s1 := 1);
    [reflexivity | discriminate |].
  apply attempts_fail_cons with (conn := nilConn) (s1 := 2);
    [reflexivity | discriminate |].
  apply attempts_fail_nil.
Qed.

Lemma Net_DialContext_failure_message_witness :
  exists errlist errs w',
    Net_DialContext example_SplitHostPort example_ParseIP example_JoinHostPort
      cancelling_net context_Background "tcp" "ndt0.local:443" example_world
    = (Returned (nilConn, ErrDial errlist errs), w')
    /\ ErrDial_Error errs =
       "dial failed: 10.0.0.1:443: context canceled; 10.0.0.3:443: context canceled".
Proof.
  exact (Net_DialContext_failure_message
           cancelling_net_tries cancelling_net_attempts_fail).
Defined.

Lemma Net_DialContext_failure_Is_witness :
  exists errlist errs w',
    Net_DialContext example_SplitHostPort example_ParseIP example_JoinHostPort
      cancelling_net context_Background "tcp" "ndt0.local:443" example_world
    = (Returned (nilConn, ErrDial errlist errs), w')
    /\ forall id text,
         errors_Is (ErrDial errlist errs) (errorValue id text) =
         existsb (fun attempt => errors_Is (snd attempt) (errorValue id text))
           [("10.0.0.1:443", context_Canceled);
            ("10.0.0.3:443", context_Canceled)].
Proof.
  exact (Net_DialContext_failure_Is
           cancelling_net_tries cancelling_net_attempts_fail).
Defined.

Lemma Net_DialContext_conn_or_error_witness :
  stackConn 0 = nilConn \/ nil_error = nil_error.
Proof.
  apply (@Net_DialContext_conn_or_error nat
           example_SplitHostPort example_ParseIP example_JoinHostPort
           example_net context_Background "tcp" "ndt0.local:443" example_world
           (stackConn 0) nil_error
           (mkWorld 1 1
              [CallGetaddrinfoLookupANY context_Background "ndt0.local";
               CallDialContext context_Background "tcp" "10.0.0.1:443"])).
  reflexivity.
Defined.

Lemma Net_DialContext_resolver_failure_witness :
  Net_DialContext example_SplitHostPort example_ParseIP example_JoinHostPort
    example_net context_Background "tcp" "unknown.local:443" example_world
  = (Returned (nilConn, errorValue 20 "no such host"),
     mkWorld 0 0 [CallGetaddrinfoLookupANY context_Background "unknown.local"])
  /\ [CallGetaddrinfoLookupANY context_Background "unknown.local"]
     = [] ++ [CallGetaddrinfoLookupANY context_Background "unknown.local"].
Proof.
  apply (@Net_DialContext_resolver_failure nat
           example_SplitHostPort example_ParseIP example_JoinHostPort
           example_net context_Background "tcp" "unknown.local:443"
           "unknown.local" "443" example_world []
           (errorValue 20 "no such host")
           (mkWorld 0 0
              [CallGetaddrinfoLookupANY context_Background "unknown.local"]));
    [reflexivity | reflexivity | reflexivity | discriminate].
Defined.

Lemma Net_DialTLSContext_dial_failure_witness :
  (Net_DialContext example_SplitHostPort example_ParseIP example_JoinHostPort
     example_net context_Background "tcp" "ndt0.local" example_world
   = (Returned (nilConn, errorValue 10 "missing port in address"),
      example_world)
   /\ Net_DialTLSContext example_SplitHostPort example_ParseIP
        example_JoinHostPort example_SetDeadline example_Close example_select
        example_net context_Background "tcp" "ndt0.local" example_world
      = (Returned (nilConn, errorValue 10 "missing port in address"),
         example_world))
  /\ Net_DialTLSContext example_SplitHostPort example_ParseIP
       example_JoinHostPort example_SetDeadline example_Close example_select
       example_net context_Background "tcp" "unknown.local:443" example_world
     = (Returned (nilConn, errorValue 20 "no such host"),
        mkWorld 0 0
          [CallGetaddrinfoLookupANY context_Background "unknown.local"]).
Proof.
  split.
  - apply (proj1 (@Net_DialTLSContext_dial_failure nat
                    example_SplitHostPort example_ParseIP example_JoinHostPort
                    example_SetDeadline example_Close example_select
                    example_net context_Background "tcp" "ndt0.local"
                    example_world) "" "");
      [reflexivity | discriminate].
  - apply (proj2 (@Net_DialTLSContext_dial_failure nat
                    example_SplitHostPort example_ParseIP example_JoinHostPort
                    example_SetDeadline example_Close example_select
                    example_net context_Background "tcp" "unknown.local:443"
                    example_world) "unknown.local" "443" nilConn);
      [reflexivity | reflexivity | discriminate].
Defined.

(** The handshake of the successful TLS dial of the small network, as it
    appears in the trace. *)
Lemma example_tls_dial :
  Net_DialTLSContext example_SplitHostPort example_ParseIP
    example_JoinHostPort example_SetDeadline example_Close example_select
    example_net example_deadline "tcp" "ndt0.local:443" example_world
  = (Returned
       (tlsConn (stackConn 0)
          {| RootCAs := 1; NextProtos := []; ServerName := "ndt0.local" |} true,
        nil_error),
     mkWorld 1 1
       [CallGetaddrinfoLookupANY example_deadline "ndt0.local";
        CallDialContext example_deadline "tcp" "10.0.0.1:443";
        CallDefaultCertPool;
        CallSetDeadline 0 (Some 5000%Z);
        GoHandshakeContext
          (tlsConn (stackConn 0)
             {| RootCAs := 1; NextProtos := []; ServerName := "ndt0.local" |}
             true)
          example_deadline;
        Select (caseErrch nil_error);
        CallSetDeadline 0 None]).
Proof. reflexivity. Qed.

Lemma Net_DialTLSContext_deadlines_witness :
  (forall id,
      deadline_after id
        [CallGetaddrinfoLookupANY example_deadline "ndt0.local";
         CallDialContext example_deadline "tcp" "10.0.0.1:443";
         CallDefaultCertPool;
         CallSetDeadline 0 (Some 5000%Z);
         GoHandshakeContext
           (tlsConn (stackConn 0)
              {| RootCAs := 1; NextProtos := []; ServerName := "ndt0.local" |}
              true)
           example_deadline;
         Select (caseErrch nil_error);
         CallSetDeadline 0 None]
      = deadline_after id []
      \/ deadline_after id
           [CallGetaddrinfoLookupANY example_deadline "ndt0.local";
            CallDialContext example_deadline "tcp" "10.0.0.1:443";
            CallDefaultCertPool;
            CallSetDeadline 0 (Some 5000%Z);
            GoHandshakeContext
              (tlsConn (stackConn 0)
                 {| RootCAs := 1; NextProtos := [];
                    ServerName := "ndt0.local" |}
                 true)
              example_deadline;
            Select (caseErrch nil_error);
            CallSetDeadline 0 None]
         = Some None)
  /\ (ctx_Deadline example_deadline = None ->
      forall id,
        deadline_after id
          [CallGetaddrinfoLookupANY example_deadline "ndt0.local";
           CallDialContext example_deadline "tcp" "10.0.0.1:443";
           CallDefaultCertPool;
           CallSetDeadline 0 (Some 5000%Z);
           GoHandshakeContext
             (tlsConn (stackConn 0)
                {| RootCAs := 1; NextProtos := [];
                   ServerName := "ndt0.local" |}
                true)
             example_deadline;
           Select (caseErrch nil_error);
           CallSetDeadline 0 None]
        = deadline_after id []).
Proof.
  exact (Net_DialTLSContext_deadlines
           example_SplitHostPort example_ParseIP example_JoinHostPort
           example_SetDeadline example_Close example_select
           example_net example_deadline "tcp" "ndt0.local:443" example_world
           example_tls_dial).
Defined.

Lemma netListenerTLS_Accept_conn_xor_error_witness :
  (errorValue 31 "tls: first record does not look like a TLS handshake"
   = nil_error
   /\ exists c0, nilConn = tlsConn c0 (config example_listener) false)
  \/ (errorValue 31 "tls: first record does not look like a TLS handshake"
      <> nil_error
      /\ nilConn = nilConn).
Proof.
  apply (@netListenerTLS_Accept_conn_xor_error nat
           example_Close example_Accept example_Now example_HandshakeContext
           example_listener example_world nilConn
           (errorValue 31 "tls: first record does not look like a TLS handshake")
           (mkWorld 1 0
              [CallAccept 0;
               CallHandshakeContext
                 (tlsConn (stackConn 0) (config example_listener) false)
                 {| ctx_Deadline := Some 10000001000%Z; ctx_Err := None |};
               CallClose 0])).
  reflexivity.
Defined.

Lemma netListenerTLS_Accept_failure_witness :
  netListenerTLS_Accept example_Close closed_Accept example_Now
    example_HandshakeContext example_listener example_world
  = (Returned (nilConn, errorValue 40 "use of closed network connection"),
     mkWorld 0 0 [CallAccept 0]).
Proof.
  apply (@netListenerTLS_Accept_failure nat
           example_Close closed_Accept example_Now example_HandshakeContext
           example_listener 0 example_world nilConn
           (errorValue 40 "use of closed network connection") 0);
    [reflexivity | reflexivity | discriminate].
Defined.

Lemma DPIThrottleTrafficForTLSSNI_Filter_ignores_endpoints_witness :
  fst (DPIThrottleTrafficForTLSSNI_Filter example_rule
         DPIDirectionClientToServer (example_hello "10.0.0.2" 50000%Z) [])
  = fst (DPIThrottleTrafficForTLSSNI_Filter example_rule
           DPIDirectionClientToServer (example_hello "10.0.0.7" 61234%Z) []).
Proof.
  apply DPIThrottleTrafficForTLSSNI_Filter_ignores_endpoints; reflexivity.
Defined.

Lemma throttle_main_report_prints_client_error_witness :
  throttle_main_report example_Must0 nil_error ECONNREFUSED = (Panicked, [])
  /\ snd (throttle_main_report example_Must0 ECONNREFUSED x509_HostnameError)
     = [Warnf {| format := "RunNDT0Client: %s";
                 args := [ArgString "connection refused"] |};
        Warnf {| format := "RunNDT0Server: %s";
                 args := [ArgString "connection refused"] |};
        TopologyClose;
        CallMust0 ECONNREFUSED].
Proof.
  split.
  - apply (proj2 (throttle_main_report_prints_client_error
                    example_Must0 nil_error ECONNREFUSED));
      [reflexivity | discriminate].
  - reflexivity.
Defined.
